(** * DietaryRecord: the nutrient calculator and the CRUD handlers of app.py

    A shallow embedding of [src/app.py].

    - Python [float] is IEEE 754 binary64; it is modelled by Rocq's primitive
      [float], which is the same format with the same correctly rounded
      operations, NaN, infinities and signed zeros included.
    - The integer literals of the source ([0], [1], [4], [9], [100]) are
      written as the float of the same value.  In arithmetic and comparisons
      with a float Python converts them to that float, and where one of them
      is returned as it is (the totals of a day without records, a percentage
      of 0), it is equal to that float.
    - A Python [dict] with string keys is a [gmap string _]; the dict of one
      progress entry, whose keys are fixed, is a record.
    - A raised exception is the [Raise] branch of [result].
    - The three tables of the SQLite database are three lists of rows, in
      rowid order.  A row holds what SQLite gives back for the values that
      were bound: a float column gives NaN back as NULL and [-0.0] as [0.0],
      so [db.session.commit()] raises IntegrityError when a NaN is bound to a
      [nullable=False] column, and an integer outside 64 bits cannot be bound
      at all (OverflowError). *)

From Stdlib Require Import ZArith Floats Lia List Bool.
From Stdlib Require Uint63.
From stdpp Require Import gmap strings.

Set Warnings "-inexact-float".

(** ** Exceptions and the result monad *)

Inductive exn : Set :=
| ZeroDivisionError   (* float division by zero *)
| KeyError            (* d[k] on a dict without k *)
| ValueError          (* float(s), int(s), strptime on a malformed string *)
| BadRequestKeyError  (* request.form[k] on a form without k *)
| AttributeError      (* attribute access on None *)
| IntegrityError      (* commit of NULL into a nullable=False column *)
| OverflowError.      (* an int outside 64 bits bound to a query *)

Inductive result (A : Type) : Type :=
| Ok (a : A)
| Raise (e : exn).
Arguments Ok {A} a.
Arguments Raise {A} e.

#[global] Instance result_ret : MRet result := fun _ a => Ok a.
#[global] Instance result_bind : MBind result := fun _ _ f m =>
  match m with
  | Ok a => f a
  | Raise e => Raise e
  end.

(** Runs the binds whose first computation is a value or an exception. *)
Ltac simpl_bind := cbn [mbind result_bind].

(** [for x in xs: acc = body(acc, x)], stopping at the first exception. *)
Fixpoint for_each {A B : Type} (body : A -> B -> result A) (xs : list B) (acc : A)
  : result A :=
  match xs with
  | [] => Ok acc
  | x :: xs' => acc' ← body acc x; for_each body xs' acc'
  end.

(** ** Python's float operations *)

Module Py.

(** [a > b] and [a < b]: false as soon as one side is NaN. *)
Definition gt (a b : float) : bool := (b <? a)%float.
Definition lt (a b : float) : bool := (a <? b)%float.
Definition le (a b : float) : bool := (a <=? b)%float.

(** [min(a, b)] keeps [a] unless [b < a]; [max(a, b)] keeps [a] unless [b > a]. *)
Definition min (a b : float) : float := if lt b a then b else a.
Definition max (a b : float) : float := if gt b a then b else a.

(** [a / b] raises ZeroDivisionError when [b] is [0.0] or [-0.0]. *)
Definition truediv (a b : float) : result float :=
  if (b =? 0)%float then Raise ZeroDivisionError else Ok (a / b)%float.

(** The integer nearest to [a / b] for [b > 0], ties going to the even one. *)
Definition round_half_even (a b : Z) : Z :=
  let q := (a / b)%Z in
  match (2 * (a mod b) ?= b)%Z with
  | Lt => q
  | Gt => (q + 1)%Z
  | Eq => if Z.even q then q else (q + 1)%Z
  end.

Definition sf_ten : spec_float := S754_finite false 10 0.

(** The double nearest to [n / 10], carrying the sign [s]. *)
Definition tenths (s : bool) (n : Z) : spec_float :=
  match n with
  | Zpos k => SFdiv prec emax (S754_finite s k 0) sf_ten
  | _ => S754_zero s
  end.

(** [round(x, 1)] on a float.  CPython rounds the exact binary value of [x] to
    one decimal digit, ties to even, and returns the double nearest to that
    decimal; NaN, the infinities and the zeros round to themselves.  A finite
    [x = m * 2^e] with [e >= 0] is an integer and is its own rounding. *)
Definition round1 (x : float) : float :=
  match Prim2SF x with
  | S754_finite s m (Zneg p) =>
      SF2Prim (tenths s (round_half_even (10 * Zpos m) (2 ^ Zpos p)))
  | _ => x
  end.

(** [d.get(k, dflt)] and [d[k]]. *)
Definition dict_get {V : Type} (d : gmap string V) (k : string) (dflt : V) : V :=
  default dflt (d !! k).

Definition dict_getitem {V : Type} (d : gmap string V) (k : string) : result V :=
  match d !! k with
  | Some v => Ok v
  | None => Raise KeyError
  end.

End Py.

(** ** Data model *)

(** The rows of the three tables.  The [created_at] and [updated_at] stamps
    are left out: no function reads them. *)

(** [datetime.date] and [datetime.time] values. *)
Record date : Set := mk_date { year : Z; month : Z; day : Z }.
Record time : Set := mk_time { hour : Z; minute : Z }.

#[global] Instance date_eq_dec : EqDecision date.
Proof. solve_decision. Defined.

Module UserConfig.
Record t : Set := make
  { id : Z;
    weight : float;          (* kg *)
    carb_per_kg : float;     (* g/kg *)
    protein_per_kg : float;
    fat_per_kg : float }.
End UserConfig.

Module FoodTemplate.
Record t : Set := make
  { id : Z;
    name : string;
    carb_ratio : float;      (* percent *)
    protein_ratio : float;
    fat_ratio : float;
    calories : option float }.
End FoodTemplate.

Module DailyRecord.
Record t : Set := make
  { id : Z;
    date : date;
    time : time;
    food_name : string;
    weight : float;          (* g *)
    carb_ratio : float;      (* percent *)
    protein_ratio : float;
    fat_ratio : float;
    notes : string;
    template_id : option string   (* the value the view binds: the form's string *)
  }.
End DailyRecord.

(** ** NutrientCalculator *)

Module NutrientCalculator.

Definition calculate_daily_goals (user_config : UserConfig.t) : gmap string float :=
  <["carb" := (UserConfig.weight user_config * UserConfig.carb_per_kg user_config)%float]>
  (<["protein" := (UserConfig.weight user_config * UserConfig.protein_per_kg user_config)%float]>
  (<["fat" := (UserConfig.weight user_config * UserConfig.fat_per_kg user_config)%float]> ∅)).

Definition calculate_nutrient_amount (record : DailyRecord.t)
  : result (gmap string float) :=
  carb_g ← Py.truediv (DailyRecord.weight record * DailyRecord.carb_ratio record) 100;
  protein_g ← Py.truediv (DailyRecord.weight record * DailyRecord.protein_ratio record) 100;
  fat_g ← Py.truediv (DailyRecord.weight record * DailyRecord.fat_ratio record) 100;
  let calories := ((carb_g * 4) + (protein_g * 4) + (fat_g * 9))%float in
  Ok (<["carb" := carb_g]> (<["protein" := protein_g]> (<["fat" := fat_g]>
      (<["calories" := calories]> ∅)))).

(** The keys of [total], in the order the dict literal inserts them. *)
Definition total_keys : list string := ["carb"; "protein"; "fat"; "calories"].

Definition zero_total : gmap string float :=
  <["carb" := 0%float]> (<["protein" := 0%float]> (<["fat" := 0%float]>
  (<["calories" := 0%float]> ∅))).

(** [DailyRecord.query.filter_by(date=target_date).all()], in table order. *)
Definition records_on (table : list DailyRecord.t) (target_date : date)
  : list DailyRecord.t :=
  filter (fun r => DailyRecord.date r = target_date) table.

(** The body of [for record in records]. *)
Definition add_record_to_total (total : gmap string float) (record : DailyRecord.t)
  : result (gmap string float) :=
  nutrients ← calculate_nutrient_amount record;
  for_each (fun (total : gmap string float) key =>
              t ← Py.dict_getitem total key;
              n ← Py.dict_getitem nutrients key;
              Ok (<[key := (t + n)%float]> total))
           total_keys total.

Definition get_daily_summary (table : list DailyRecord.t) (today : date)
  (target_date : option date) : result (gmap string float) :=
  let target_date := default today target_date in
  let records := records_on table target_date in
  for_each add_record_to_total records zero_total.

Record progress_entry : Set := mk_entry
  { consumed : float;
    goal : float;
    percentage : float;
    remaining : float;
    is_over : bool }.

Definition macro_keys : list string := ["carb"; "protein"; "fat"].

(** The body of [for nutrient in ['carb', 'protein', 'fat']]. *)
Definition progress_of (goals daily_summary : gmap string float) (nutrient : string)
  : result progress_entry :=
  let consumed := Py.dict_get daily_summary nutrient 0%float in
  let goal := Py.dict_get goals nutrient 1%float in
  percentage ← (if Py.gt goal 0
                then q ← Py.truediv consumed goal; Ok (Py.min (q * 100) 100)
                else Ok 0%float);
  Ok {| consumed := Py.round1 consumed;
        goal := Py.round1 goal;
        percentage := Py.round1 percentage;
        remaining := Py.max (Py.round1 (goal - consumed)) 0;
        is_over := Py.gt consumed goal |}.

Definition get_progress (user_config : UserConfig.t) (daily_summary : gmap string float)
  : result (gmap string progress_entry) :=
  let goals := calculate_daily_goals user_config in
  for_each (fun (progress : gmap string progress_entry) nutrient =>
              entry ← progress_of goals daily_summary nutrient;
              Ok (<[nutrient := entry]> progress))
           macro_keys ∅.

End NutrientCalculator.

Import NutrientCalculator.

(** ** The database and the request handlers *)

(** The three tables, each in rowid order. *)
Record db : Set := mk_db
  { user_configs : list UserConfig.t;
    food_templates : list FoodTemplate.t;
    daily_records : list DailyRecord.t }.

Inductive http_method : Set := GET | POST.

Record http_request : Set := mk_request
  { method : http_method;
    form : gmap string string }.

(** [flash(message, category)]; [detail] is the exception an f-string shows. *)
Record flash : Set := mk_flash
  { message : string;
    detail : option exn;
    category : string }.

Inductive response : Set :=
| Redirect (endpoint : string) (flashes : list flash)
| Render (template : string) (flashes : list flash)
| Json (progress : gmap string progress_entry)
| Abort (status : Z)       (* 404 of get_or_404, 400 of a BadRequestKeyError *)
| Uncaught (e : exn).      (* an exception no handler catches: 500 *)

(** [Model.query.get(id)]: the row with that primary key. *)
Definition query_get {A : Type} (pk : A -> Z) (table : list A) (id : Z) : option A :=
  List.find (fun row => (pk row =? id)%Z) table.

(** An integer that fits SQLite's 64-bit INTEGER.  Binding any other integer
    to a query raises OverflowError; no stored rowid is outside the range, so
    such an id is never found. *)
Definition sqlite_integer (n : Z) : bool :=
  ((- 2 ^ 63 <=? n) && (n <? 2 ^ 63))%Z.

(** What a lookup by primary key that found no row answers: nothing, or the
    OverflowError of the id that could not be bound. *)
Definition not_found {A : Type} (id : Z) (missing : A) (error : exn -> A) : A :=
  if sqlite_integer id then missing else error OverflowError.

(** What SQLite gives back for a float bound to a column: NaN is stored as
    NULL, a zero of either sign comes back as [0.0], every other value comes
    back as it is. *)
Definition sqlite_stored (x : float) : float :=
  if (x =? 0)%float then 0%float else x.

Definition sqlite_real (x : float) : option float :=
  if is_nan x then None else Some (sqlite_stored x).

(** A float committed to a [nullable=False] column. *)
Definition not_null (x : float) : result float :=
  match sqlite_real x with
  | Some y => Ok y
  | None => Raise IntegrityError
  end.

(** The rowid SQLite gives an inserted row: one more than the largest. *)
Definition next_id {A : Type} (pk : A -> Z) (table : list A) : Z :=
  (1 + fold_right Z.max 0 (map pk table))%Z.

(** [db.session.delete(row)] for the row with primary key [id]. *)
Definition delete_row {A : Type} (pk : A -> Z) (table : list A) (id : Z) : list A :=
  List.filter (fun row => negb (pk row =? id)%Z) table.

(** The committed update of the row with primary key [id]. *)
Definition update_row {A : Type} (pk : A -> Z) (table : list A) (id : Z) (row' : A)
  : list A :=
  map (fun row => if (pk row =? id)%Z then row' else row) table.

(** [request.form[k]] and [request.form.get(k)]. *)
Definition form_getitem (form : gmap string string) (k : string) : result string :=
  match form !! k with
  | Some v => Ok v
  | None => Raise BadRequestKeyError
  end.

(** Truth value of [request.form.get(k)]: a present, non-empty string. *)
Definition truthy (v : option string) : bool :=
  match v with
  | Some s => negb (String.eqb s "")
  | None => false
  end.

Section Handlers.

(** The builtins [float(s)] and [int(s)] on a string, and
    [datetime.strptime(s, '%H:%M').time()]: [None] stands for ValueError. *)
Variable py_float : string -> option float.
Variable py_int : string -> option Z.
Variable strptime_hm : string -> option time.
(** [date.today()] and [datetime.now().strftime('%H:%M')]. *)
Variable today : date.
Variable now_hm : string.

Definition to_float (s : string) : result float :=
  match py_float s with
  | Some x => Ok x
  | None => Raise ValueError
  end.

Definition to_int (s : string) : result Z :=
  match py_int s with
  | Some n => Ok n
  | None => Raise ValueError
  end.

Definition to_time (s : string) : result time :=
  match strptime_hm s with
  | Some t => Ok t
  | None => Raise ValueError
  end.

(** [float(request.form[k])]. *)
Definition float_field (form : gmap string string) (k : string) : result float :=
  s ← form_getitem form k; to_float s.

Definition index (st : db) : db * response :=
  match head (user_configs st) with
  | None => (st, Uncaught AttributeError)
  | Some user_config =>
      match (daily_summary ← get_daily_summary (daily_records st) today (Some today);
             get_progress user_config daily_summary) with
      | Ok _ => (st, Render "dashboard.html" [])
      | Raise e => (st, Uncaught e)
      end
  end.

Definition config (req : http_request) (st : db) : db * response :=
  match method req with
  | GET => (st, Render "config.html" [])
  | POST =>
      let attempt : result UserConfig.t :=
        weight ← float_field (form req) "weight";
        user_config ← match head (user_configs st) with
                       | Some c => Ok c
                       | None => Raise AttributeError
                       end;
        carb_per_kg ← float_field (form req) "carb_per_kg";
        protein_per_kg ← float_field (form req) "protein_per_kg";
        fat_per_kg ← float_field (form req) "fat_per_kg";
        (* db.session.commit() *)
        weight ← not_null weight;
        carb_per_kg ← not_null carb_per_kg;
        protein_per_kg ← not_null protein_per_kg;
        fat_per_kg ← not_null fat_per_kg;
        Ok (UserConfig.make (UserConfig.id user_config) weight carb_per_kg
              protein_per_kg fat_per_kg) in
      match attempt with
      | Ok user_config =>
          (mk_db (user_config :: tail (user_configs st)) (food_templates st)
                 (daily_records st),
           Redirect "index" [mk_flash "配置已更新！" None "success"])
      | Raise ValueError =>
          (st, Render "config.html" [mk_flash "请输入有效的数字！" None "error"])
      | Raise BadRequestKeyError => (st, Abort 400)
      | Raise e => (st, Uncaught e)
      end
  end.

Definition add_record (req : http_request) (st : db) : db * response :=
  match method req with
  | GET => (st, Render "add_record.html" [])
  | POST =>
      let attempt : result DailyRecord.t :=
        food_name ← form_getitem (form req) "food_name";
        weight ← float_field (form req) "weight";
        let template_id := form req !! "template_id" in
        let use_template :=
          truthy template_id && negb (bool_decide (template_id = Some "custom")) in
        '(carb_ratio, protein_ratio, fat_ratio) ←
          (if use_template
           then id ← to_int (default "" template_id);
                match query_get FoodTemplate.id (food_templates st) id with
                | Some template =>
                    Ok (FoodTemplate.carb_ratio template,
                        FoodTemplate.protein_ratio template,
                        FoodTemplate.fat_ratio template)
                | None => not_found id (Raise AttributeError) Raise
                end
           else c ← float_field (form req) "carb_ratio";
                p ← float_field (form req) "protein_ratio";
                f ← float_field (form req) "fat_ratio";
                Ok (c, p, f));
        record_time ← to_time (default now_hm (form req !! "time"));
        (* db.session.commit() *)
        weight ← not_null weight;
        carb_ratio ← not_null carb_ratio;
        protein_ratio ← not_null protein_ratio;
        fat_ratio ← not_null fat_ratio;
        Ok (DailyRecord.make (next_id DailyRecord.id (daily_records st)) today
              record_time food_name weight carb_ratio protein_ratio fat_ratio
              (default "" (form req !! "notes"))
              (if bool_decide (template_id = Some "custom") then None else template_id)) in
      match attempt with
      | Ok record =>
          (mk_db (user_configs st) (food_templates st) (daily_records st ++ [record]),
           Redirect "index" [mk_flash "记录添加成功！" None "success"])
      | Raise ValueError =>
          (st, Render "add_record.html"
                 [mk_flash "请输入有效的数字！错误: " (Some ValueError) "error"])
      | Raise e =>
          (st, Render "add_record.html" [mk_flash "添加失败: " (Some e) "error"])
      end
  end.

Definition add_template (req : http_request) (st : db) : db * response :=
  match method req with
  | GET => (st, Render "add_template.html" [])
  | POST =>
      let attempt : result (db * response) :=
        carb_ratio ← float_field (form req) "carb_ratio";
        protein_ratio ← float_field (form req) "protein_ratio";
        fat_ratio ← float_field (form req) "fat_ratio";
        let total_ratio := (carb_ratio + protein_ratio + fat_ratio)%float in
        if Py.gt total_ratio 100
        then Ok (st, Render "add_template.html"
                       [mk_flash "营养比例总和不能超过100%！" None "error"])
        else
          name ← form_getitem (form req) "name";
          calories ← (if truthy (form req !! "calories")
                      then c ← float_field (form req) "calories"; Ok (sqlite_real c)
                      else Ok None);
          (* db.session.commit() *)
          carb_ratio ← not_null carb_ratio;
          protein_ratio ← not_null protein_ratio;
          fat_ratio ← not_null fat_ratio;
          let template :=
            FoodTemplate.make (next_id FoodTemplate.id (food_templates st)) name
              carb_ratio protein_ratio fat_ratio calories in
          Ok (mk_db (user_configs st) (food_templates st ++ [template])
                    (daily_records st),
              Redirect "templates" [mk_flash "模板添加成功！" None "success"]) in
      match attempt with
      | Ok outcome => outcome
      | Raise ValueError =>
          (st, Render "add_template.html" [mk_flash "请输入有效的数字！" None "error"])
      | Raise e =>
          (st, Render "add_template.html" [mk_flash "添加失败: " (Some e) "error"])
      end
  end.

Definition templates (st : db) : db * response :=
  (st, Render "templates.html" []).

Definition history (st : db) : db * response :=
  match head (user_configs st) with
  | None => (st, Uncaught AttributeError)
  | Some _ => (st, Render "history.html" [])
  end.

Definition api_progress (st : db) : db * response :=
  match head (user_configs st) with
  | None => (st, Uncaught AttributeError)
  | Some user_config =>
      match (daily_summary ← get_daily_summary (daily_records st) today None;
             get_progress user_config daily_summary) with
      | Ok progress => (st, Json progress)
      | Raise e => (st, Uncaught e)
      end
  end.

Definition delete_record (id : Z) (st : db) : db * response :=
  match query_get DailyRecord.id (daily_records st) id with
  | None => (st, not_found id (Abort 404) Uncaught)
  | Some _ =>
      (mk_db (user_configs st) (food_templates st)
             (delete_row DailyRecord.id (daily_records st) id),
       Redirect "index" [mk_flash "记录已删除！" None "success"])
  end.

(** No relationship cascades to the records, and SQLite does not enforce the
    foreign key of [DailyRecord.template_id] unless it is asked to: the rows
    that refer to the deleted template stay as they are. *)
Definition delete_template (id : Z) (st : db) : db * response :=
  match query_get FoodTemplate.id (food_templates st) id with
  | None => (st, not_found id (Abort 404) Uncaught)
  | Some _ =>
      (mk_db (user_configs st) (delete_row FoodTemplate.id (food_templates st) id)
             (daily_records st),
       Redirect "templates" [mk_flash "模板已删除！" None "success"])
  end.

(** When a field or the commit fails, the attributes already assigned are
    changed on the session's object only; nothing is committed and the table
    is unchanged.  [get_or_404] is called outside the [try]. *)
Definition edit_template (id : Z) (req : http_request) (st : db) : db * response :=
  match query_get FoodTemplate.id (food_templates st) id with
  | None => (st, not_found id (Abort 404) Uncaught)
  | Some template =>
      match method req with
      | GET => (st, Render "edit_template.html" [])
      | POST =>
          let attempt : result FoodTemplate.t :=
            name ← form_getitem (form req) "name";
            carb_ratio ← float_field (form req) "carb_ratio";
            protein_ratio ← float_field (form req) "protein_ratio";
            fat_ratio ← float_field (form req) "fat_ratio";
            calories ← (if truthy (form req !! "calories")
                        then c ← float_field (form req) "calories"; Ok (sqlite_real c)
                        else Ok (FoodTemplate.calories template));
            (* db.session.commit() *)
            carb_ratio ← not_null carb_ratio;
            protein_ratio ← not_null protein_ratio;
            fat_ratio ← not_null fat_ratio;
            Ok (FoodTemplate.make (FoodTemplate.id template) name carb_ratio
                  protein_ratio fat_ratio calories) in
          match attempt with
          | Ok template' =>
              (mk_db (user_configs st)
                     (update_row FoodTemplate.id (food_templates st) id template')
                     (daily_records st),
               Redirect "templates" [mk_flash "模板已更新！" None "success"])
          | Raise e =>
              (st, Render "edit_template.html" [mk_flash "更新失败: " (Some e) "error"])
          end
      end
  end.

(** The URL map.  A route with an id carries the integer its [<int:id>]
    converter read in the URL.  [handle] calls the view of the route: the
    method check Flask makes before the call (405 for a POST to a view
    registered for GET alone) is not part of it. *)
Inductive route : Set :=
| RIndex
| RConfig
| RAddRecord
| RAddTemplate
| RTemplates
| RHistory
| RApiProgress
| RDeleteRecord (id : Z)
| RDeleteTemplate (id : Z)
| REditTemplate (id : Z).

Definition handle (r : route) (req : http_request) (st : db) : db * response :=
  match r with
  | RIndex => index st
  | RConfig => config req st
  | RAddRecord => add_record req st
  | RAddTemplate => add_template req st
  | RTemplates => templates st
  | RHistory => history st
  | RApiProgress => api_progress st
  | RDeleteRecord id => delete_record id st
  | RDeleteTemplate id => delete_template id st
  | REditTemplate id => edit_template id req st
  end.

(** The database after a sequence of requests. *)
Definition run (requests : list (route * http_request)) (st : db) : db :=
  fold_left (fun st rq => fst (handle (fst rq) (snd rq) st)) requests st.

End Handlers.

(** ** Notions used in the statements *)

(** The entry of [calculate_nutrient_amount(record)] under [key], when the call
    returns and the dict has the key. *)
Definition nutrient (record : DailyRecord.t) (key : string) : option float :=
  match calculate_nutrient_amount record with
  | Ok nutrients => nutrients !! key
  | Raise _ => None
  end.

(** The same entry, as a number. *)
Definition amount (record : DailyRecord.t) (key : string) : float :=
  default 0%float (nutrient record key).

(** Python's [sum(xs)]: the additions are made left to right, starting from 0. *)
Definition py_sum (xs : list float) : float :=
  fold_left (fun acc x => (acc + x)%float) xs 0%float.

(** [total] holds [f key] under each of the four keys. *)
Definition has_totals (total : gmap string float) (f : string -> float) : Prop :=
  forall key, key ∈ total_keys -> total !! key = Some (f key).

(** The entry of [get_progress(user_config, daily_summary)] under [key]. *)
Definition progress_entry_of (user_config : UserConfig.t)
  (daily_summary : gmap string float) (key : string) : option progress_entry :=
  match get_progress user_config daily_summary with
  | Ok progress => progress !! key
  | Raise _ => None
  end.

(** The entry the loop body builds, with the guarded division carried out. *)
Definition entry_for (goals daily_summary : gmap string float) (nutrient : string)
  : progress_entry :=
  let consumed := Py.dict_get daily_summary nutrient 0%float in
  let goal := Py.dict_get goals nutrient 1%float in
  {| consumed := Py.round1 consumed;
     goal := Py.round1 goal;
     percentage := Py.round1 (if Py.gt goal 0
                              then Py.min (consumed / goal * 100) 100
                              else 0);
     remaining := Py.max (Py.round1 (goal - consumed)) 0;
     is_over := Py.gt consumed goal |}.

(** The calories field is absent, empty, or parses as a number. *)
Definition calories_field_ok (py_float : string -> option float)
  (form : gmap string string) : Prop :=
  truthy (form !! "calories") = false \/
  exists s c, form !! "calories" = Some s /\ py_float s = Some c.

(** Routes that delete a record, and routes that edit or delete a template. *)
Definition is_delete_record (r : route) : bool :=
  match r with
  | RDeleteRecord _ => true
  | _ => false
  end.

Definition is_template_change (r : route) : bool :=
  match r with
  | REditTemplate _ | RDeleteTemplate _ => true
  | _ => false
  end.

(** [sf_signed s f]: [f] is a zero, or a finite number or an infinity of sign
    [s]; in particular [f] is not NaN. *)
Definition sf_signed (s : bool) (f : spec_float) : bool :=
  match f with
  | S754_zero _ => true
  | S754_infinity s' | S754_finite s' _ _ => Bool.eqb s s'
  | S754_nan => false
  end.

(** [n / 10], as [round1] produces it, lies between 0 and 100. *)
Definition tenths_in_range (n : Z) : bool :=
  let r := SF2Prim (Py.tenths false n) in
  ((0 <=? r)%float && (r <=? 100)%float)%bool.

(** ** Sample rows *)

Definition new_year : date := mk_date 2024 1 1.
Definition noon : time := mk_time 12 0.

(** 100 g of the sample template "rice" (75 / 7 / 1). *)
Definition rice : DailyRecord.t :=
  DailyRecord.make 1 new_year noon "rice" 100 75 7 1 "" None.

(** A second helping the same day, and one the day after. *)
Definition rice_again : DailyRecord.t :=
  DailyRecord.make 3 new_year noon "rice" 100 75 7 1 "" None.
Definition rice_next_day : DailyRecord.t :=
  DailyRecord.make 2 (mk_date 2024 1 2) noon "rice" 100 75 7 1 "" None.

(** The same row entered with the weight -100. *)
Definition negative_rice : DailyRecord.t :=
  DailyRecord.make 1 new_year noon "rice" (-100) 75 7 1 "" None.

(** The configuration [init_database] creates: the goals are 180, 90 and 48. *)
Definition default_config : UserConfig.t := UserConfig.make 1 60 3 1.5 0.8.

(** A configuration with body weight 0: every goal is 0. *)
Definition zero_weight_config : UserConfig.t := UserConfig.make 1 0 3 1.5 0.8.

Definition carb_60 : gmap string float := {["carb" := 60%float]}.
Definition protein_quarter : gmap string float := {["protein" := 0.25%float]}.
Definition protein_100 : gmap string float := {["protein" := 100%float]}.

(** ** Sample requests *)

(** [float(s)] on the strings of decimal digits that denote an integer below
    [2^53]; every other string is refused.  It agrees with Python's [float]
    on the strings used in the examples below. *)
Fixpoint digits_value (s : string) (acc : Z) : option Z :=
  match s with
  | EmptyString => Some acc
  | String c s' =>
      let d := (Z.of_N (Ascii.N_of_ascii c) - 48)%Z in
      if ((0 <=? d) && (d <=? 9))%Z then digits_value s' (10 * acc + d)%Z else None
  end.

Definition float_of_digits (s : string) : option float :=
  match s with
  | EmptyString => None
  | _ =>
      match digits_value s 0 with
      | Some n => if (n <? 2 ^ 53)%Z then Some (of_uint63 (Uint63.of_Z n)) else None
      | None => None
      end
  end.

(** The ratio fields of a form, as sent. *)
Definition ratio_form (name carb protein fat : string) : gmap string string :=
  <["name" := name]> (<["carb_ratio" := carb]> (<["protein_ratio" := protein]>
  (<["fat_ratio" := fat]> ∅))).

(** A database holding the default configuration and the sample template
    "rice", and one that also holds a record made from it. *)
Definition rice_template : FoodTemplate.t := FoodTemplate.make 1 "rice" 75 7 1 None.
Definition db_one_template : db := mk_db [default_config] [rice_template] [].
Definition db_one_record : db := mk_db [default_config] [rice_template] [rice].

(** [int(s)] on the same digit strings, and [strptime] on "12:00" alone. *)
Definition int_of_digits (s : string) : option Z :=
  match s with
  | EmptyString => None
  | _ => digits_value s 0
  end.

Definition time_of_hm (s : string) : option time :=
  if String.eqb s "12:00" then Some noon else None.

(** A POST with the ratios 10 / 10 / 10, one whose calories field is "abc",
    and one with the ratios 50 / 40 / 30, which sum to 120. *)
Definition post_oats : http_request :=
  mk_request POST (ratio_form "oats" "10" "10" "10").
Definition post_oats_bad_calories : http_request :=
  mk_request POST (<["calories" := "abc"]> (ratio_form "oats" "10" "10" "10")).
Definition post_rice_120 : http_request :=
  mk_request POST (ratio_form "rice" "50" "40" "30").
Definition get_request : http_request := mk_request GET ∅.

(** A POST to add_record: 100 g from the template with id 1, and the same
    from a template with id 7. *)
Definition record_form (template_id : string) : gmap string string :=
  <["food_name" := "rice"]> (<["weight" := "100"]> (<["template_id" := template_id]>
  (<["time" := "12:00"]> ∅))).
Definition post_record_1 : http_request := mk_request POST (record_form "1").

(** A POST to config whose second field is not a number. *)
Definition post_config_bad : http_request :=
  mk_request POST
    (<["weight" := "70"]> (<["carb_per_kg" := "abc"]> (<["protein_per_kg" := "2"]>
     (<["fat_per_kg" := "1"]> ∅)))).

(** [float(s)] on the digit strings and on "nan". *)
Definition float_of_text (s : string) : option float :=
  if String.eqb s "nan" then Some nan else float_of_digits s.

(** A POST to config with four numbers, and one whose weight is "nan". *)
Definition config_form (weight : string) : gmap string string :=
  <["weight" := weight]> (<["carb_per_kg" := "4"]> (<["protein_per_kg" := "2"]>
  (<["fat_per_kg" := "1"]> ∅))).
Definition post_config_70 : http_request := mk_request POST (config_form "70").
Definition post_config_nan : http_request := mk_request POST (config_form "nan").

(** A POST of template fields whose carb ratio is "nan". *)
Definition post_rice_nan : http_request :=
  mk_request POST (ratio_form "rice" "nan" "40" "30").


(** ** Database initialisation *)

(** The four sample templates of [init_database]: name and the three ratios. *)
Definition sample_templates : list (string * float * float * float) :=
  [("白米饭", 75, 7, 1); ("鸡胸肉", 0, 23, 2); ("鸡蛋", 1, 13, 11);
   ("炒饭", 40, 20, 10)]%float.

(** [init_database()]: when there is no configuration row, the default
    configuration and the sample templates are added, each with the next
    rowid; otherwise nothing is done.  [db.create_all()] has no effect on the
    rows. *)
Definition init_database (st : db) : db :=
  match head (user_configs st) with
  | Some _ => st
  | None =>
      mk_db (user_configs st ++
             [UserConfig.make (next_id UserConfig.id (user_configs st)) 60 3 1.5 0.8])
            (fold_left
               (fun table '(name, carb, protein, fat) =>
                  table ++ [FoodTemplate.make (next_id FoodTemplate.id table) name
                              carb protein fat None])
               sample_templates (food_templates st))
            (daily_records st)
  end.

(** ** Further notions used in the statements *)

(** No two rows of a table share their primary key. *)
Definition pk_unique (st : db) : Prop :=
  NoDup (map UserConfig.id (user_configs st)) /\
  NoDup (map FoodTemplate.id (food_templates st)) /\
  NoDup (map DailyRecord.id (daily_records st)).

(** The two routes that delete rows. *)
Definition is_delete_route (r : route) : bool :=
  match r with
  | RDeleteRecord _ | RDeleteTemplate _ => true
  | _ => false
  end.

(** A finite number that is not negative. *)
Definition nonneg_finite (x : float) : bool :=
  ((0 <=? x)%float && (x <? infinity)%float)%bool.

(** A finite number: neither NaN nor an infinity. *)
Definition finite_number (x : float) : bool :=
  ((neg_infinity <? x)%float && (x <? infinity)%float)%bool.

(** A record whose weight and ratios are finite and not negative. *)
Definition nonneg_record (record : DailyRecord.t) : bool :=
  nonneg_finite (DailyRecord.weight record) &&
  nonneg_finite (DailyRecord.carb_ratio record) &&
  nonneg_finite (DailyRecord.protein_ratio record) &&
  nonneg_finite (DailyRecord.fat_ratio record).

(** ** Facts about binary64 arithmetic *)

Section FloatFacts.

Lemma float_mul_comm (x y : float) : (x * y = y * x)%float.
Proof.
  apply Prim2SF_inj. rewrite !mul_spec. unfold SF64mul, SFmul.
  destruct (Prim2SF x) as [sx|sx| |sx mx ex], (Prim2SF y) as [sy|sy| |sy my ey];
    try reflexivity; try (now rewrite xorb_comm).
  now rewrite xorb_comm, Pos.mul_comm, Z.add_comm.
Qed.

Lemma float_neq (x y : float) : PrimFloat.Leibniz.eqb x y = false -> x <> y.
Proof.
  intros Hb Heq. destruct (Leibniz.eqb_spec x y) as [_ Hx].
  rewrite (Hx Heq) in Hb. discriminate.
Qed.

(** A float that is greater than zero is not a zero. *)
Lemma gt_zero_not_zero (g : float) : Py.gt g 0 = true -> (g =? 0)%float = false.
Proof.
  unfold Py.gt. rewrite FloatAxioms.ltb_spec, FloatAxioms.eqb_spec.
  change (Prim2SF 0) with (S754_zero false).
  destruct (Prim2SF g) as [s|s| |s m e]; try destruct s; cbv; congruence.
Qed.


(** *** Signs through rounding *)

Section Rounding.

Variables prec emax : Z.

Lemma shr_1_nonneg (mrs : shr_record) : (0 <= shr_m mrs -> 0 <= shr_m (shr_1 mrs))%Z.
Proof.
  destruct mrs as [[|[p|p|]|p] r s]; simpl; lia.
Qed.

Lemma iter_pos_shr_1_nonneg (p : positive) :
  forall mrs, (0 <= shr_m mrs -> 0 <= shr_m (SpecFloat.iter_pos shr_1 p mrs))%Z.
Proof.
  induction p as [p IH|p IH|]; intros mrs H; simpl.
  - apply IH, IH, shr_1_nonneg, H.
  - apply IH, IH, H.
  - apply shr_1_nonneg, H.
Qed.

Lemma shr_fexp_nonneg (m e : Z) (l : location) :
  (0 <= m -> 0 <= shr_m (fst (shr_fexp prec emax m e l)))%Z.
Proof.
  intros H. unfold shr_fexp, shr.
  assert (H0 : (0 <= shr_m (shr_record_of_loc m l))%Z).
  { destruct l as [|[]]; exact H. }
  destruct (fexp prec emax (Zdigits2 m + e) - e)%Z; simpl; auto.
  now apply iter_pos_shr_1_nonneg.
Qed.

Lemma round_nearest_even_nonneg (m : Z) (l : location) :
  (0 <= m -> 0 <= round_nearest_even m l)%Z.
Proof.
  intros H. destruct l as [|[]]; simpl; try lia.
  destruct (Z.even m); lia.
Qed.

Lemma binary_round_aux_signed (s : bool) (m e : Z) (l : location) :
  (0 <= m)%Z -> sf_signed s (binary_round_aux prec emax s m e l) = true.
Proof.
  intros H. unfold binary_round_aux.
  pose proof (shr_fexp_nonneg m e l H) as H1.
  destruct (shr_fexp prec emax m e l) as [mrs' e']. simpl in H1.
  pose proof (shr_fexp_nonneg _ e' loc_Exact
                (round_nearest_even_nonneg _ (loc_of_shr_record mrs') H1)) as H2.
  destruct (shr_fexp prec emax _ e' loc_Exact) as [mrs'' e'']. simpl in H2.
  destruct (shr_m mrs'') as [|q|q]; [reflexivity| |lia].
  destruct (e'' <=? emax - prec)%Z; simpl; apply eqb_reflx.
Qed.

Lemma binary_round_signed (s : bool) (m : positive) (e : Z) :
  sf_signed s (binary_round prec emax s m e) = true.
Proof.
  unfold binary_round. destruct (shl_align _ _ _) as [mz ez].
  apply binary_round_aux_signed. lia.
Qed.

Lemma SFdiv_core_binary_nonneg (m1 e1 m2 e2 : Z) :
  (0 <= m1 -> 0 < m2 ->
   0 <= fst (fst (SFdiv_core_binary prec emax m1 e1 m2 e2)))%Z.
Proof.
  intros H1 H2. unfold SFdiv_core_binary.
  set (sh := (e1 - e2 - _)%Z).
  set (m' := match sh with Z0 => m1 | Zpos _ => Z.shiftl m1 sh | Zneg _ => 0%Z end).
  assert (Hm' : (0 <= m')%Z).
  { subst m'. destruct sh; try lia. now apply Z.shiftl_nonneg. }
  pose proof (Z_div_mod m' m2 ltac:(lia)) as Hd.
  destruct (Z.div_eucl m' m2) as [q r]. simpl. nia.
Qed.

Lemma SFdiv_signed (sx sy : bool) (mx my : positive) (ex ey : Z) :
  sf_signed (xorb sx sy)
    (SFdiv prec emax (S754_finite sx mx ex) (S754_finite sy my ey)) = true.
Proof.
  unfold SFdiv.
  pose proof (SFdiv_core_binary_nonneg (Zpos mx) ex (Zpos my) ey ltac:(lia) ltac:(lia)) as H.
  destruct (SFdiv_core_binary _ _ _ _ _ _) as [[mz ez] lz]. simpl in H.
  now apply binary_round_aux_signed.
Qed.

Lemma SFmul_signed (sx sy : bool) (mx my : positive) (ex ey : Z) :
  sf_signed (xorb sx sy)
    (SFmul prec emax (S754_finite sx mx ex) (S754_finite sy my ey)) = true.
Proof. apply binary_round_aux_signed. lia. Qed.

End Rounding.

Lemma SFopp_signed (s : bool) (f : spec_float) :
  sf_signed s f = true -> sf_signed (negb s) (SFopp f) = true.
Proof. destruct f as [| s' | | s' m e], s; try destruct s'; simpl; congruence. Qed.

(** Converting a signed value to a primitive float keeps its sign. *)
Lemma SF2Prim_signed (s : bool) (f : spec_float) :
  sf_signed s f = true -> sf_signed s (Prim2SF (SF2Prim f)) = true.
Proof.
  destruct f as [[]|[]| |s' m e]; simpl; try (intros _; reflexivity); try discriminate.
  - destruct s; [reflexivity | discriminate].
  - destruct s; [discriminate | reflexivity].
  - intros Hs. apply eqb_prop in Hs. subst s'.
    assert (Hf : sf_signed false
              (Prim2SF (Z.ldexp (of_uint63 (Uint63.of_Z (Z.pos m))) e)) = true).
    { unfold Z.ldexp. rewrite ldshiftexp_spec, of_uint63_spec.
      pose proof (Uint63.to_Z_bounded (Uint63.of_Z (Z.pos m))) as Hb.
      destruct (Uint63.to_Z (Uint63.of_Z (Z.pos m))) as [|k|k]; [reflexivity| |lia].
      unfold binary_normalize.
      pose proof (binary_round_signed prec emax false k 0) as Hk.
      destruct (binary_round prec emax false k 0) as [|s1| |s1 m1 e1];
        try exact Hk; try discriminate.
      simpl in Hk. destruct s1; [discriminate Hk|].
      unfold SFldexp. apply binary_round_signed. }
    destruct s.
    + rewrite opp_spec. exact (SFopp_signed false _ Hf).
    + exact Hf.
Qed.

(** *** Comparisons *)

Lemma SFcompare_antisym (a b : spec_float) (c : comparison) :
  SFcompare a b = Some c -> SFcompare b a = Some (CompOpp c).
Proof.
  destruct a as [sa|sa| |sa ma ea], b as [sb|sb| |sb mb eb]; simpl;
    try discriminate; intros [= <-];
    try destruct sa; try destruct sb; try reflexivity;
    rewrite (Z.compare_antisym ea eb);
    destruct (ea ?= eb)%Z; simpl; try reflexivity;
    change (PosDef.Pos.compare_cont Eq mb ma) with (Pos.compare mb ma);
    change (PosDef.Pos.compare_cont Eq ma mb) with (Pos.compare ma mb);
    rewrite (Pos.compare_antisym ma mb); now rewrite ?CompOpp_involutive.
Qed.

Lemma SFleb_of_not_ltb (a b : spec_float) :
  a <> S754_nan -> b <> S754_nan -> SFltb a b = false -> SFleb b a = true.
Proof.
  intros Ha Hb. unfold SFltb, SFleb.
  destruct (SFcompare a b) as [c|] eqn:E.
  - rewrite (SFcompare_antisym _ _ _ E). now destruct c.
  - destruct a, b; simpl in E; congruence.
Qed.

Lemma SFltb_of_leb (a b : spec_float) : SFleb a b = true -> SFltb b a = false.
Proof.
  unfold SFltb, SFleb. destruct (SFcompare a b) as [c|] eqn:E; [|discriminate].
  rewrite (SFcompare_antisym _ _ _ E). now destruct c.
Qed.

Lemma SFleb_zero_signed (f : spec_float) :
  SFleb (S754_zero false) f = sf_signed false f.
Proof. destruct f as [s|[]| |[] m e]; reflexivity. Qed.

Lemma Prim2SF_hundred : Prim2SF 100 = S754_finite false 7036874417766400 (-46).
Proof. vm_compute. reflexivity. Qed.

Lemma SFltb_hundred_nonpos (f : spec_float) :
  sf_signed true f = true -> SFltb (Prim2SF 100) f = false.
Proof.
  rewrite Prim2SF_hundred.
  destruct f as [s|[]| |[] m e]; intros H; try reflexivity; discriminate H.
Qed.

(** *** Rounding to one decimal *)

Lemma digits2_pos_bound (m : positive) : (Z.pos m < 2 ^ Z.pos (digits2_pos m))%Z.
Proof.
  induction m as [m IH|m IH|]; simpl digits2_pos;
    rewrite ?Pos2Z.inj_succ, ?Z.pow_succ_r by lia; lia.
Qed.

(** The mantissa of a binary64 number is below [2^53]. *)
Lemma valid_mantissa_bound (s : bool) (m : positive) (e : Z) :
  valid_binary (S754_finite s m e) = true -> (Z.pos m < 2 ^ 53)%Z.
Proof.
  simpl. unfold bounded, canonical_mantissa, fexp. intros H.
  apply andb_true_iff in H as [H _]. apply Z.eqb_eq in H.
  pose proof (digits2_pos_bound m) as Hd.
  assert (Hle : (Z.pos (digits2_pos m) <= 53)%Z) by (unfold prec in H; lia).
  eapply Z.lt_le_trans; [exact Hd|]. apply Z.pow_le_mono_r; lia.
Qed.

Lemma round_half_even_bounds (a b n : Z) :
  (0 <= a -> 0 < b -> a <= n * b -> 0 <= Py.round_half_even a b <= n)%Z.
Proof.
  intros Ha Hb Hn. unfold Py.round_half_even.
  pose proof (Z.div_mod a b ltac:(lia)) as Hdm.
  pose proof (Z.mod_pos_bound a b Hb) as Hr.
  assert (Hq : (0 <= a / b)%Z) by (apply Z.div_pos; lia).
  assert (Hqn : (a / b <= n)%Z) by nia.
  destruct (Z.compare_spec (2 * (a mod b)) b) as [E|E|E].
  - destruct (Z.even (a / b)); [lia|]. nia.
  - lia.
  - nia.
Qed.

(** A positive float that is not above 100 rounds to at most 1000 tenths. *)
Lemma tenths_of_le_hundred (m p : positive) :
  valid_binary (S754_finite false m (Z.neg p)) = true ->
  SFltb (Prim2SF 100) (S754_finite false m (Z.neg p)) = false ->
  (0 <= Py.round_half_even (10 * Z.pos m) (2 ^ Z.pos p) <= 1000)%Z.
Proof.
  intros Hv Hlt. apply valid_mantissa_bound in Hv.
  rewrite Prim2SF_hundred in Hlt. unfold SFltb, SFcompare in Hlt.
  assert (H2p : (0 < 2 ^ Z.pos p)%Z) by (apply Z.pow_pos_nonneg; lia).
  apply round_half_even_bounds; [lia | exact H2p |].
  destruct (Z.compare_spec (-46) (Z.neg p)) as [E|E|E]; [| discriminate |].
  - assert (p = 46%positive) by lia. subst p.
    change (PosDef.Pos.compare_cont Eq 7036874417766400 m)
      with (Pos.compare 7036874417766400 m) in Hlt.
    change (2 ^ 46)%Z with 70368744177664%Z.
    destruct (Pos.compare_spec 7036874417766400 m) as [F|F|F]; try discriminate.
    + apply (f_equal Z.pos) in F. lia.
    + apply Pos2Z.pos_lt_pos in F. lia.
  - assert (H47 : (2 ^ 47 <= 2 ^ Z.pos p)%Z) by (apply Z.pow_le_mono_r; lia).
    change (2 ^ 53)%Z with 9007199254740992%Z in Hv.
    change (2 ^ 47)%Z with 140737488355328%Z in H47. lia.
Qed.


(** Each of the 1001 values [0.0, 0.1, ..., 100.0] lies between 0 and 100. *)
Lemma tenths_range_check :
  forallb tenths_in_range (map Z.of_nat (seq 0 1001)) = true.
Proof. vm_compute. reflexivity. Qed.

Lemma tenths_range (n : Z) : (0 <= n <= 1000)%Z -> tenths_in_range n = true.
Proof.
  intros Hn. pose proof tenths_range_check as H.
  rewrite forallb_forall in H. apply H.
  apply in_map_iff. exists (Z.to_nat n). split; [lia|].
  apply in_seq. lia.
Qed.

Lemma tenths_signed (s : bool) (n : Z) : sf_signed s (Py.tenths s n) = true.
Proof.
  destruct n as [|k|k]; try reflexivity. unfold Py.tenths, Py.sf_ten.
  pose proof (SFdiv_signed prec emax s false k 10 0 0) as H.
  now rewrite xorb_false_r in H.
Qed.

(** Rounding never lifts a value above 100, whatever the float. *)
Lemma round1_not_above_hundred (y : float) :
  (100 <? y)%float = false -> (100 <? Py.round1 y)%float = false.
Proof.
  intros H. unfold Py.round1.
  destruct (Prim2SF y) as [s|s| |s m [|p|p]] eqn:E; try exact H.
  rewrite FloatAxioms.ltb_spec. destruct s.
  - apply SFltb_hundred_nonpos, SF2Prim_signed, tenths_signed.
  - rewrite FloatAxioms.ltb_spec, E in H.
    pose proof (Prim2SF_valid y) as Hv. rewrite E in Hv.
    pose proof (tenths_range _ (tenths_of_le_hundred m p Hv H)) as Hr.
    unfold tenths_in_range in Hr. cbv zeta in Hr.
    apply andb_true_iff in Hr as [_ Hr].
    rewrite FloatAxioms.leb_spec in Hr. now apply SFltb_of_leb.
Qed.

(** A value between 0 and 100 rounds to a value between 0 and 100. *)
Lemma round1_in_range (y : float) :
  (0 <=? y)%float = true -> (100 <? y)%float = false ->
  (0 <=? Py.round1 y)%float = true /\ (Py.round1 y <=? 100)%float = true.
Proof.
  intros H0 H100.
  assert (Hsame : (0 <=? y)%float = true /\ (y <=? 100)%float = true).
  { split; [exact H0|].
    rewrite FloatAxioms.leb_spec in *. rewrite FloatAxioms.ltb_spec in H100.
    change (Prim2SF 0) with (S754_zero false) in H0.
    rewrite SFleb_zero_signed in H0.
    apply SFleb_of_not_ltb; [now rewrite Prim2SF_hundred | | exact H100].
    intros En. rewrite En in H0. discriminate. }
  unfold Py.round1.
  destruct (Prim2SF y) as [s|s| |s m [|p|p]] eqn:E; try exact Hsame.
  clear Hsame. rewrite FloatAxioms.leb_spec, E in H0.
  destruct s; [discriminate H0|].
  rewrite FloatAxioms.ltb_spec, E in H100.
  pose proof (Prim2SF_valid y) as Hv. rewrite E in Hv.
  pose proof (tenths_range _ (tenths_of_le_hundred m p Hv H100)) as Hr.
  unfold tenths_in_range in Hr. cbv zeta in Hr.
  now apply andb_true_iff in Hr.
Qed.

(** *** The capped percentage *)

(** For a finite [c >= 0] and a [g > 0], [c / g * 100] is a zero, a positive
    number or [+inf]: it is not NaN and not negative. *)
Lemma quotient_nonneg (c g : float) :
  (0 <=? c)%float = true -> (c <? infinity)%float = true -> (0 <? g)%float = true ->
  sf_signed false (Prim2SF (c / g * 100)) = true.
Proof.
  rewrite FloatAxioms.leb_spec, !FloatAxioms.ltb_spec, mul_spec, div_spec.
  rewrite Prim2SF_hundred.
  change (Prim2SF 0) with (S754_zero false).
  change (Prim2SF infinity) with (S754_infinity false).
  unfold SF64mul, SF64div.
  destruct (Prim2SF c) as [sc|[]| |[] mc ec]; try discriminate;
    destruct (Prim2SF g) as [sg|[]| |[] mg eg]; try discriminate;
    intros _ _ _; try reflexivity.
  pose proof (SFdiv_signed prec emax false false mc mg ec eg) as Hd.
  destruct (SFdiv prec emax _ _) as [sd|[]| |[] md ed]; try discriminate;
    try reflexivity.
  apply (SFmul_signed prec emax false false).
Qed.

Lemma min_hundred_not_above (x : float) : (100 <? Py.min x 100)%float = false.
Proof.
  unfold Py.min, Py.lt. destruct (100 <? x)%float eqn:E; [reflexivity | exact E].
Qed.

Lemma min_hundred_nonneg (x : float) :
  sf_signed false (Prim2SF x) = true -> (0 <=? Py.min x 100)%float = true.
Proof.
  intros H. unfold Py.min, Py.lt. destruct (100 <? x)%float; [reflexivity|].
  rewrite FloatAxioms.leb_spec. change (Prim2SF 0) with (S754_zero false).
  now rewrite SFleb_zero_signed.
Qed.

(** *** Ordering of numbers that are not NaN *)

Lemma not_nan_Prim2SF (x : float) : is_nan x = false -> Prim2SF x <> S754_nan.
Proof.
  unfold is_nan. rewrite FloatAxioms.eqb_spec. intros H E. rewrite E in H.
  discriminate H.
Qed.

(** For a number, [x <= 100] holds exactly when [x > 100] does not. *)
Lemma le_hundred_iff_not_gt (x : float) :
  is_nan x = false -> Py.le x 100 = true <-> Py.gt x 100 = false.
Proof.
  intros Hn. unfold Py.le, Py.gt.
  rewrite FloatAxioms.leb_spec, FloatAxioms.ltb_spec. split.
  - apply SFltb_of_leb.
  - apply SFleb_of_not_ltb; [now rewrite Prim2SF_hundred | now apply not_nan_Prim2SF].
Qed.

(** *** What SQLite gives back *)

Lemma SFeqb_refl (f : spec_float) : f <> S754_nan -> SFeqb f f = true.
Proof.
  intros H. unfold SFeqb. destruct f as [s|[]| |[] m e]; try reflexivity;
    try contradiction; simpl; rewrite Z.compare_refl;
    change (PosDef.Pos.compare_cont Eq m m) with (Pos.compare m m);
    now rewrite Pos.compare_refl.
Qed.

Lemma is_nan_Prim2SF (x : float) : is_nan x = true -> Prim2SF x = S754_nan.
Proof.
  unfold is_nan. rewrite FloatAxioms.eqb_spec. intros H.
  destruct (Prim2SF x) as [s|s| |s m e] eqn:E; try reflexivity;
    rewrite SFeqb_refl in H by discriminate; discriminate H.
Qed.

Lemma Prim2SF_nan_is_nan (x : float) : Prim2SF x = S754_nan -> is_nan x = true.
Proof.
  intros E. unfold is_nan. rewrite FloatAxioms.eqb_spec, E. reflexivity.
Qed.

(** A sum that is a number has addends that are numbers. *)
Lemma add_not_nan (x y : float) :
  is_nan (x + y) = false -> is_nan x = false /\ is_nan y = false.
Proof.
  intros H. split.
  - destruct (is_nan x) eqn:E; [|reflexivity]. apply is_nan_Prim2SF in E.
    rewrite <- H. symmetry. apply Prim2SF_nan_is_nan. rewrite add_spec, E. reflexivity.
  - destruct (is_nan y) eqn:E; [|reflexivity]. apply is_nan_Prim2SF in E.
    rewrite <- H. symmetry. apply Prim2SF_nan_is_nan. rewrite add_spec, E.
    unfold SF64add, SFadd. now destruct (Prim2SF x).
Qed.

Lemma not_null_number (x : float) :
  is_nan x = false -> not_null x = Ok (sqlite_stored x).
Proof. intros H. unfold not_null, sqlite_real. now rewrite H. Qed.

Lemma gt_nan (x y : float) : is_nan x = true -> Py.gt x y = false.
Proof.
  intros H. apply is_nan_Prim2SF in H. unfold Py.gt.
  rewrite FloatAxioms.ltb_spec, H. unfold SFltb, SFcompare.
  now destruct (Prim2SF y).
Qed.

Lemma not_null_nan (x : float) :
  is_nan x = true -> not_null x = Raise IntegrityError.
Proof. intros H. unfold not_null, sqlite_real. now rewrite H. Qed.

End FloatFacts.

(** ** The calculator *)

Section Calculator.

Lemma calculate_nutrient_amount_eq (record : DailyRecord.t) :
  calculate_nutrient_amount record =
  let w := DailyRecord.weight record in
  let carb_g := (w * DailyRecord.carb_ratio record / 100)%float in
  let protein_g := (w * DailyRecord.protein_ratio record / 100)%float in
  let fat_g := (w * DailyRecord.fat_ratio record / 100)%float in
  Ok (<["carb" := carb_g]> (<["protein" := protein_g]> (<["fat" := fat_g]>
     (<["calories" := (carb_g * 4 + protein_g * 4 + fat_g * 9)%float]> ∅)))).
Proof. reflexivity. Qed.

(** C1. For every record, [calculate_nutrient_amount] returns (it raises
    nothing) a dict whose carb, protein and fat entries are
    [weight * ratio / 100] and whose calories entry is
    [4*carb + 4*protein + 9*fat]; for weight 100 and carb_ratio 75 the carb
    entry is 75.0 and its calorie contribution [4 * 75.0] is 300.0. *)
Theorem calculate_nutrient_amount_spec (record : DailyRecord.t) :
  let w := DailyRecord.weight record in
  let carb_g := (w * DailyRecord.carb_ratio record / 100)%float in
  let protein_g := (w * DailyRecord.protein_ratio record / 100)%float in
  let fat_g := (w * DailyRecord.fat_ratio record / 100)%float in
  (exists nutrients, calculate_nutrient_amount record = Ok nutrients) /\
  nutrient record "carb" = Some carb_g /\
  nutrient record "protein" = Some protein_g /\
  nutrient record "fat" = Some fat_g /\
  nutrient record "calories" = Some (4 * carb_g + 4 * protein_g + 9 * fat_g)%float /\
  (w = 100%float -> DailyRecord.carb_ratio record = 75%float ->
   nutrient record "carb" = Some 75%float /\ (4 * 75 = 300)%float).
Proof.
  intros w carb_g protein_g fat_g. unfold nutrient.
  rewrite calculate_nutrient_amount_eq. cbv zeta.
  fold w. fold carb_g protein_g fat_g.
  split; [eauto|]. repeat split; try reflexivity.
  - rewrite (float_mul_comm 4 carb_g), (float_mul_comm 4 protein_g),
      (float_mul_comm 9 fat_g). reflexivity.
  - subst carb_g w. rewrite H, H0. reflexivity.
Qed.

Lemma calculate_nutrient_amount_spec_witness :
  nutrient rice "carb" = Some 75%float /\ (4 * 75 = 300)%float.
Proof.
  apply (calculate_nutrient_amount_spec rice); reflexivity.
Defined.

(** C6. For every user config, [calculate_daily_goals] returns a dict with
    exactly the keys carb, protein and fat, each holding
    [weight * coefficient]. *)
Theorem calculate_daily_goals_spec (user_config : UserConfig.t) :
  let goals := calculate_daily_goals user_config in
  let w := UserConfig.weight user_config in
  goals !! "carb" = Some (w * UserConfig.carb_per_kg user_config)%float /\
  goals !! "protein" = Some (w * UserConfig.protein_per_kg user_config)%float /\
  goals !! "fat" = Some (w * UserConfig.fat_per_kg user_config)%float /\
  dom goals = list_to_set macro_keys.
Proof.
  cbv zeta. unfold calculate_daily_goals. repeat split; reflexivity.
Qed.

(** *** The daily summary *)


Lemma total_keys_cases (key : string) :
  key ∈ total_keys ->
  key = "carb" \/ key = "protein" \/ key = "fat" \/ key = "calories".
Proof. unfold total_keys. rewrite !elem_of_cons, elem_of_nil. tauto. Qed.

Lemma macro_keys_cases (key : string) :
  key ∈ macro_keys -> key = "carb" \/ key = "protein" \/ key = "fat".
Proof. unfold macro_keys. rewrite !elem_of_cons, elem_of_nil. tauto. Qed.

Lemma nutrient_amount (record : DailyRecord.t) (key : string) :
  key ∈ total_keys -> nutrient record key = Some (amount record key).
Proof.
  intros Hk. unfold amount, nutrient. rewrite calculate_nutrient_amount_eq.
  destruct (total_keys_cases key Hk) as [-> | [-> | [-> | ->]]]; reflexivity.
Qed.


Lemma add_record_to_total_spec (total : gmap string float) (f : string -> float)
  (record : DailyRecord.t) :
  has_totals total f ->
  exists total', add_record_to_total total record = Ok total' /\
    has_totals total' (fun key => (f key + amount record key)%float).
Proof.
  intros Ht.
  assert (Hc : total !! "carb" = Some (f "carb")) by (apply Ht; set_solver).
  assert (Hp : total !! "protein" = Some (f "protein")) by (apply Ht; set_solver).
  assert (Hf : total !! "fat" = Some (f "fat")) by (apply Ht; set_solver).
  assert (Hk : total !! "calories" = Some (f "calories")) by (apply Ht; set_solver).
  unfold add_record_to_total. rewrite calculate_nutrient_amount_eq. cbv zeta.
  unfold total_keys, for_each, Py.dict_getitem.
  simpl_bind.
  repeat (first [ rewrite lookup_insert_eq
                 | rewrite lookup_insert_ne by done
                 | rewrite Hc | rewrite Hp | rewrite Hf | rewrite Hk ];
          simpl_bind).
  eexists; split; [reflexivity|].
  intros key Hkey. unfold amount, nutrient.
  rewrite calculate_nutrient_amount_eq. cbv zeta.
  destruct (total_keys_cases key Hkey) as [-> | [-> | [-> | ->]]];
    simplify_map_eq; reflexivity.
Qed.

Lemma for_each_totals (records : list DailyRecord.t) :
  forall (total : gmap string float) (f : string -> float),
  has_totals total f ->
  exists total', for_each add_record_to_total records total = Ok total' /\
    has_totals total'
      (fun key => fold_left (fun acc x => (acc + x)%float)
                    (map (fun r => amount r key) records) (f key)).
Proof.
  induction records as [|r rs IH]; intros total f Ht.
  - exists total. split; [reflexivity | exact Ht].
  - destruct (add_record_to_total_spec total f r Ht) as (total1 & E1 & H1).
    destruct (IH total1 _ H1) as (total' & E' & H').
    exists total'. split; [|exact H'].
    cbn [for_each]. rewrite E1. exact E'.
Qed.

Lemma amounts_Forall2 (key : string) (records : list DailyRecord.t) :
  key ∈ total_keys ->
  Forall2 (fun r a => nutrient r key = Some a) records
          (map (fun r => amount r key) records).
Proof.
  intros Hk. induction records as [|r rs IH]; constructor; auto.
  now apply nutrient_amount.
Qed.

Lemma records_on_filter (table : list DailyRecord.t) (d : date) :
  records_on table d = List.filter (fun r => bool_decide (DailyRecord.date r = d)) table.
Proof.
  unfold records_on. induction table as [|r table IH]; [reflexivity|].
  rewrite filter_cons. simpl. rewrite <- IH.
  destruct (decide (DailyRecord.date r = d)) as [E|E].
  - now rewrite bool_decide_eq_true_2.
  - now rewrite bool_decide_eq_false_2.
Qed.

(** C3. For every date, [get_daily_summary] returns (it raises nothing) a dict
    that holds, under each of carb, protein, fat and calories, the sum of that
    entry of [calculate_nutrient_amount] over the rows of the records table
    whose date is that date, taken in table order; when no row of the table
    has the date, the four totals are 0. *)
Theorem get_daily_summary_spec (table : list DailyRecord.t) (today : date)
  (target_date : option date) :
  let d := default today target_date in
  exists total, get_daily_summary table today target_date = Ok total /\
    (forall key, key ∈ total_keys ->
       exists amounts,
         Forall2 (fun r a => nutrient r key = Some a)
                 (List.filter (fun r => bool_decide (DailyRecord.date r = d)) table)
                 amounts /\
         total !! key = Some (py_sum amounts)) /\
    ((forall r, r ∈ table -> DailyRecord.date r <> d) ->
     forall key, key ∈ total_keys -> total !! key = Some 0%float).
Proof.
  intros d. unfold get_daily_summary. fold d.
  destruct (for_each_totals (records_on table d) zero_total (fun _ => 0%float))
    as (total & E & H).
  { intros key Hk.
    destruct (total_keys_cases key Hk) as [-> | [-> | [-> | ->]]]; reflexivity. }
  exists total. split; [exact E|]. split.
  - intros key Hk. exists (map (fun r => amount r key) (records_on table d)).
    split; [|now apply H].
    rewrite <- records_on_filter. now apply amounts_Forall2.
  - intros Hnone key Hk. rewrite (H key Hk).
    assert (Hnil : records_on table d = []).
    { unfold records_on. clear -Hnone.
      induction table as [|r table IH]; [reflexivity|].
      rewrite filter_cons, decide_False.
      - apply IH. intros r' Hr'. apply Hnone. now apply list_elem_of_further.
      - apply Hnone. apply list_elem_of_here. }
    rewrite Hnil. reflexivity.
Qed.

Lemma get_daily_summary_spec_witness :
  (exists total,
     get_daily_summary [rice; rice_next_day; rice_again] new_year None = Ok total /\
     total !! "carb" = Some 150%float /\ total !! "protein" = Some 14%float /\
     total !! "fat" = Some 2%float /\ total !! "calories" = Some 674%float) /\
  (exists total,
     get_daily_summary [rice] new_year (Some (mk_date 2024 1 2)) = Ok total /\
     forall key, key ∈ total_keys -> total !! key = Some 0%float).
Proof.
  split.
  - destruct (get_daily_summary_spec [rice; rice_next_day; rice_again] new_year None)
      as (total & E & H & _).
    assert (Hkey : forall key x y, key ∈ total_keys ->
              nutrient rice key = Some x -> nutrient rice_again key = Some y ->
              total !! key = Some (0 + x + y)%float).
    { intros key x y Hk Hx Hy. destruct (H key Hk) as (amounts & HF & ->).
      vm_compute List.filter in HF.
      inversion HF as [|r a rs amounts1 Ha HF1]; subst.
      inversion HF1 as [|r1 a1 rs1 amounts2 Ha1 HF2]; subst.
      inversion HF2; subst.
      change (nutrient rice key = Some a) in Ha.
      change (nutrient rice_again key = Some a1) in Ha1.
      rewrite Hx in Ha. rewrite Hy in Ha1.
      injection Ha as <-. injection Ha1 as <-. reflexivity. }
    exists total. split; [exact E|].
    split; [|split; [|split]].
    + now rewrite (Hkey "carb" 75%float 75%float); [| set_solver | |].
    + now rewrite (Hkey "protein" 7%float 7%float); [| set_solver | |].
    + now rewrite (Hkey "fat" 1%float 1%float); [| set_solver | |].
    + now rewrite (Hkey "calories" 337%float 337%float); [| set_solver | |].
  - destruct (get_daily_summary_spec [rice] new_year (Some (mk_date 2024 1 2)))
      as (total & E & _ & H).
    exists total. split; [exact E|]. apply H.
    intros r Hr. apply list_elem_of_singleton in Hr as ->. discriminate.
Defined.

(** *** Progress against the goals *)


Lemma progress_of_eq (goals daily_summary : gmap string float) (nutrient : string) :
  progress_of goals daily_summary nutrient = Ok (entry_for goals daily_summary nutrient).
Proof.
  unfold progress_of, entry_for. cbv zeta.
  destruct (Py.gt (Py.dict_get goals nutrient 1%float) 0) eqn:Hg; [|reflexivity].
  unfold Py.truediv. rewrite (gt_zero_not_zero _ Hg). reflexivity.
Qed.

Lemma get_progress_eq (user_config : UserConfig.t) (daily_summary : gmap string float) :
  let goals := calculate_daily_goals user_config in
  get_progress user_config daily_summary =
  Ok (<["fat" := entry_for goals daily_summary "fat"]>
     (<["protein" := entry_for goals daily_summary "protein"]>
     (<["carb" := entry_for goals daily_summary "carb"]> ∅))).
Proof.
  cbv zeta. unfold get_progress, macro_keys, for_each.
  rewrite !progress_of_eq. reflexivity.
Qed.

Lemma progress_entry_of_eq (user_config : UserConfig.t)
  (daily_summary : gmap string float) (key : string) :
  key ∈ macro_keys ->
  progress_entry_of user_config daily_summary key =
  Some (entry_for (calculate_daily_goals user_config) daily_summary key).
Proof.
  intros Hk. unfold progress_entry_of. rewrite get_progress_eq. cbv zeta.
  destruct (macro_keys_cases key Hk) as [-> | [-> | ->]]; reflexivity.
Qed.

Lemma round1_zero : Py.round1 0 = 0%float.
Proof. reflexivity. Qed.

(** C2, as the code has it.  For every user config and daily summary, and for
    each macro, the percentage returned by [get_progress] is
    [round(min(consumed / goal * 100, 100), 1)] when the goal is positive, and
    0 when the goal is 0 (more generally, whenever the goal is not positive). *)
Theorem get_progress_percentage (user_config : UserConfig.t)
  (daily_summary : gmap string float) (key : string) :
  key ∈ macro_keys ->
  let consumed := Py.dict_get daily_summary key 0%float in
  let goal := Py.dict_get (calculate_daily_goals user_config) key 1%float in
  exists entry, progress_entry_of user_config daily_summary key = Some entry /\
    (Py.gt goal 0 = true ->
     percentage entry = Py.round1 (Py.min (consumed / goal * 100) 100)) /\
    ((goal =? 0)%float = true -> percentage entry = 0%float) /\
    (Py.gt goal 0 = false -> percentage entry = 0%float).
Proof.
  intros Hk consumed goal. eexists. split; [now apply progress_entry_of_eq|].
  unfold entry_for. cbn [percentage]. fold consumed goal.
  split; [|split].
  - intros ->. reflexivity.
  - intros Hz. destruct (Py.gt goal 0) eqn:Hg; [|exact round1_zero].
    rewrite (gt_zero_not_zero _ Hg) in Hz. discriminate.
  - intros ->. exact round1_zero.
Qed.

(** C5, as the code has it.  For every user config and daily summary, and for
    each macro, [get_progress] returns
    [remaining = max(round(goal - consumed, 1), 0)] and
    [is_over = (consumed > goal)]. *)
Theorem get_progress_remaining (user_config : UserConfig.t)
  (daily_summary : gmap string float) (key : string) :
  key ∈ macro_keys ->
  let consumed := Py.dict_get daily_summary key 0%float in
  let goal := Py.dict_get (calculate_daily_goals user_config) key 1%float in
  exists entry, progress_entry_of user_config daily_summary key = Some entry /\
    remaining entry = Py.max (Py.round1 (goal - consumed)) 0 /\
    is_over entry = Py.gt consumed goal.
Proof.
  intros Hk consumed goal. eexists. split; [now apply progress_entry_of_eq|].
  split; reflexivity.
Qed.

(** C9. For every user config and daily summary, [get_progress] returns: it
    never raises ZeroDivisionError.  Whenever a macro's goal is not strictly
    positive, the quotient is not computed and the percentage is 0, also when
    the goal is a zero, where the division itself would raise. *)
Theorem get_progress_no_zero_division (user_config : UserConfig.t)
  (daily_summary : gmap string float) :
  (exists progress, get_progress user_config daily_summary = Ok progress) /\
  get_progress user_config daily_summary <> Raise ZeroDivisionError /\
  Forall (fun key =>
    let consumed := Py.dict_get daily_summary key 0%float in
    let goal := Py.dict_get (calculate_daily_goals user_config) key 1%float in
    Py.gt goal 0 = false ->
    exists entry,
      progress_of (calculate_daily_goals user_config) daily_summary key = Ok entry /\
      progress_entry_of user_config daily_summary key = Some entry /\
      percentage entry = 0%float /\
      ((goal =? 0)%float = true -> Py.truediv consumed goal = Raise ZeroDivisionError))
    macro_keys.
Proof.
  pose proof (get_progress_eq user_config daily_summary) as E. cbv zeta in E.
  split; [rewrite E; eauto|]. split; [rewrite E; discriminate|].
  apply Forall_forall. intros key Hk consumed goal Hg.
  eexists. split; [apply progress_of_eq|].
  split; [now apply progress_entry_of_eq|].
  unfold entry_for. cbn [percentage]. fold goal. rewrite Hg.
  split; [exact round1_zero|].
  intros Hz. unfold Py.truediv. rewrite Hz. reflexivity.
Qed.

(** C4, as the code has it.  For every user config and daily summary, and
    for each macro, the percentage returned by [get_progress] is never above
    100, also when consumed exceeds the goal, and in that case [is_over] is
    true; the percentage lies in the closed interval [0, 100] whenever
    consumed is a finite number that is not negative. *)
Theorem get_progress_percentage_capped (user_config : UserConfig.t)
  (daily_summary : gmap string float) (key : string) :
  key ∈ macro_keys ->
  let consumed := Py.dict_get daily_summary key 0%float in
  let goal := Py.dict_get (calculate_daily_goals user_config) key 1%float in
  exists entry, progress_entry_of user_config daily_summary key = Some entry /\
    Py.gt (percentage entry) 100 = false /\
    (Py.gt consumed goal = true ->
     is_over entry = true /\ Py.gt (percentage entry) 100 = false) /\
    (Py.le 0 consumed = true -> Py.lt consumed infinity = true ->
     Py.le 0 (percentage entry) = true /\ Py.le (percentage entry) 100 = true).
Proof.
  intros Hk consumed goal. eexists. split; [now apply progress_entry_of_eq|].
  unfold entry_for. cbn [percentage is_over]. fold consumed goal.
  assert (Hcap : Py.gt (Py.round1 (if Py.gt goal 0
                                   then Py.min (consumed / goal * 100) 100
                                   else 0)) 100 = false).
  { unfold Py.gt at 1. apply round1_not_above_hundred.
    destruct (Py.gt goal 0); [apply min_hundred_not_above | reflexivity]. }
  split; [exact Hcap|]. split; [intros ->; split; [reflexivity | exact Hcap]|].
  unfold Py.le, Py.lt. intros H0 Hfin.
  destruct (Py.gt goal 0) eqn:Hg.
  - apply round1_in_range; [|apply min_hundred_not_above].
    apply min_hundred_nonneg, quotient_nonneg; assumption.
  - split; reflexivity.
Qed.

End Calculator.

(** ** The calculator on sample inputs *)

Section CalculatorExamples.

(** [round1] on values whose [round(x, 1)] in CPython is known: 2.675 and 0.35
    lie below the decimal they are written as, 0.45 lies above it, 0.25 and
    0.75 are exact ties and go to the even digit, and the sign of a value
    that rounds to zero is kept. *)
Lemma round1_examples :
  Py.round1 2.675 = 2.7%float /\ Py.round1 0.35 = 0.3%float /\
  Py.round1 0.45 = 0.5%float /\ Py.round1 0.25 = 0.2%float /\
  Py.round1 0.75 = 0.8%float /\ Py.round1 99.95 = 100%float /\
  Py.round1 (-0.04) = (-0)%float /\ Py.round1 1234567.85 = 1234567.9%float /\
  Py.round1 1e300 = 1e300%float /\ Py.round1 infinity = infinity /\
  Py.round1 nan = nan.
Proof. repeat split. Qed.

Lemma get_progress_percentage_witness :
  exists entry, progress_entry_of default_config carb_60 "carb" = Some entry /\
    percentage entry = 33.3%float.
Proof.
  destruct (get_progress_percentage default_config carb_60 "carb")
    as (entry & He & Hp & _); [repeat constructor|].
  exists entry. split; [exact He|]. rewrite Hp; reflexivity.
Defined.

(** C2 as stated fails: with 60 g consumed against a goal of 180 g the
    returned percentage is 33.3, not [min(60 / 180 * 100, 100)]. *)
Lemma get_progress_percentage_is_rounded :
  exists entry, progress_entry_of default_config carb_60 "carb" = Some entry /\
    Py.dict_get carb_60 "carb" 0%float = 60%float /\
    Py.dict_get (calculate_daily_goals default_config) "carb" 1%float = 180%float /\
    Py.gt 180 0 = true /\
    percentage entry = 33.3%float /\
    Py.min (60 / 180 * 100) 100 = 33.33333333333333%float /\
    percentage entry <> Py.min (60 / 180 * 100) 100.
Proof.
  eexists. split; [reflexivity|]. repeat split. now apply float_neq.
Qed.

Lemma get_progress_remaining_witness :
  exists entry, progress_entry_of default_config protein_100 "protein" = Some entry /\
    remaining entry = 0%float /\ is_over entry = true.
Proof.
  destruct (get_progress_remaining default_config protein_100 "protein")
    as (entry & He & Hr & Ho); [repeat constructor|].
  exists entry. split; [exact He|]. rewrite Hr, Ho. split; reflexivity.
Defined.

(** C5 as stated fails: with 0.25 g consumed against a goal of 90 g the
    returned remaining amount is 89.8, not [max(90 - 0.25, 0) = 89.75]. *)
Lemma get_progress_remaining_is_rounded :
  exists entry, progress_entry_of default_config protein_quarter "protein" = Some entry /\
    Py.dict_get protein_quarter "protein" 0%float = 0.25%float /\
    Py.dict_get (calculate_daily_goals default_config) "protein" 1%float = 90%float /\
    remaining entry = 89.8%float /\
    Py.max (90 - 0.25) 0 = 89.75%float /\
    remaining entry <> Py.max (90 - 0.25) 0.
Proof.
  eexists. split; [reflexivity|]. repeat split. now apply float_neq.
Qed.

Lemma get_progress_percentage_capped_witness :
  exists entry, progress_entry_of default_config protein_100 "protein" = Some entry /\
    is_over entry = true /\
    Py.le 0 (percentage entry) = true /\ Py.le (percentage entry) 100 = true.
Proof.
  destruct (get_progress_percentage_capped default_config protein_100 "protein")
    as (entry & He & _ & Ho & Hr); [repeat constructor|].
  exists entry. split; [exact He|]. split.
  - apply Ho. reflexivity.
  - apply Hr; reflexivity.
Defined.

(** C4 as stated fails: a record entered with the weight -100 gives a
    negative carb total, and the returned percentage is -41.7. *)
Lemma get_progress_percentage_negative :
  exists daily_summary entry,
    get_daily_summary [negative_rice] new_year None = Ok daily_summary /\
    daily_summary !! "carb" = Some (-75)%float /\
    progress_entry_of default_config daily_summary "carb" = Some entry /\
    percentage entry = (-41.7)%float /\
    Py.le 0 (percentage entry) = false.
Proof.
  eexists. eexists. split; [reflexivity|]. repeat split.
Qed.

Lemma get_progress_no_zero_division_witness :
  exists entry, progress_entry_of zero_weight_config carb_60 "carb" = Some entry /\
    percentage entry = 0%float /\
    Py.truediv 60 0 = Raise ZeroDivisionError.
Proof.
  destruct (get_progress_no_zero_division zero_weight_config carb_60) as (_ & _ & H).
  rewrite Forall_forall in H.
  destruct (H "carb") as (entry & _ & He & Hp & Hz); [repeat constructor | reflexivity |].
  exists entry. split; [exact He|]. split; [exact Hp|]. apply Hz. reflexivity.
Defined.

End CalculatorExamples.

(** ** The request handlers *)


Section HandlerFacts.

Variable py_float : string -> option float.
Variable py_int : string -> option Z.
Variable strptime_hm : string -> option time.
Variable today : date.
Variable now_hm : string.


Lemma float_field_parsed (form : gmap string string) (k s : string) (x : float) :
  form !! k = Some s -> py_float s = Some x -> float_field py_float form k = Ok x.
Proof.
  intros Hk Hs. unfold float_field, form_getitem, to_float.
  rewrite Hk. simpl_bind. now rewrite Hs.
Qed.

Lemma calories_parsed (form : gmap string string) (dflt : option float) :
  calories_field_ok py_float form ->
  exists calories,
    (if truthy (form !! "calories")
     then c ← float_field py_float form "calories"; Ok (sqlite_real c)
     else Ok dflt) = Ok calories.
Proof.
  intros [Hf | (s & c & Hs & Hc)].
  - rewrite Hf. eauto.
  - rewrite (float_field_parsed _ _ _ _ Hs Hc).
    destruct (truthy _); simpl_bind; eauto.
Qed.

(** *** Creating a template *)

(** The result of [add_template] once the three ratios have parsed. *)
Lemma add_template_parsed (req : http_request) (st : db)
  (s_carb s_protein s_fat : string) (carb_ratio protein_ratio fat_ratio : float) :
  method req = POST ->
  form req !! "carb_ratio" = Some s_carb -> py_float s_carb = Some carb_ratio ->
  form req !! "protein_ratio" = Some s_protein -> py_float s_protein = Some protein_ratio ->
  form req !! "fat_ratio" = Some s_fat -> py_float s_fat = Some fat_ratio ->
  add_template py_float req st =
  match
    (if Py.gt (carb_ratio + protein_ratio + fat_ratio) 100
     then Ok (st, Render "add_template.html"
                    [mk_flash "营养比例总和不能超过100%！" None "error"])
     else
       name ← form_getitem (form req) "name";
       calories ← (if truthy (form req !! "calories")
                   then c ← float_field py_float (form req) "calories"; Ok (sqlite_real c)
                   else Ok None);
       carb ← not_null carb_ratio;
       protein ← not_null protein_ratio;
       fat ← not_null fat_ratio;
       Ok (mk_db (user_configs st)
                 (food_templates st ++
                  [FoodTemplate.make (next_id FoodTemplate.id (food_templates st))
                     name carb protein fat calories])
                 (daily_records st),
           Redirect "templates" [mk_flash "模板添加成功！" None "success"]))
  with
  | Ok outcome => outcome
  | Raise ValueError =>
      (st, Render "add_template.html" [mk_flash "请输入有效的数字！" None "error"])
  | Raise e => (st, Render "add_template.html" [mk_flash "添加失败: " (Some e) "error"])
  end.
Proof.
  intros Hm Hc Hc' Hp Hp' Hf Hf'. unfold add_template. rewrite Hm.
  rewrite (float_field_parsed _ _ _ _ Hc Hc'), (float_field_parsed _ _ _ _ Hp Hp'),
    (float_field_parsed _ _ _ _ Hf Hf').
  reflexivity.
Qed.

(** C7, as the code has it.  For every add_template POST whose three ratio
    fields parse as numbers: when the sum of the ratios exceeds 100 the request
    is rejected with the error message and the database is unchanged; when the
    form also has a name and its calories field is absent, empty or a number,
    and the sum is not NaN, a template is created if and only if the sum is at
    most 100, and the created row holds the submitted name and the ratios as
    SQLite gives them back (a ratio [-0.0] is stored as [0.0]). *)
Theorem add_template_sum_check (req : http_request) (st : db)
  (s_carb s_protein s_fat : string) (carb_ratio protein_ratio fat_ratio : float) :
  method req = POST ->
  form req !! "carb_ratio" = Some s_carb -> py_float s_carb = Some carb_ratio ->
  form req !! "protein_ratio" = Some s_protein -> py_float s_protein = Some protein_ratio ->
  form req !! "fat_ratio" = Some s_fat -> py_float s_fat = Some fat_ratio ->
  let total_ratio := (carb_ratio + protein_ratio + fat_ratio)%float in
  let outcome := add_template py_float req st in
  (Py.gt total_ratio 100 = true ->
   outcome = (st, Render "add_template.html"
                    [mk_flash "营养比例总和不能超过100%！" None "error"])) /\
  (forall name, form req !! "name" = Some name -> calories_field_ok py_float (form req) ->
   is_nan total_ratio = false ->
   ((exists template,
       food_templates (fst outcome) = food_templates st ++ [template]) <->
    Py.le total_ratio 100 = true) /\
   (Py.le total_ratio 100 = true ->
    exists calories,
      outcome =
      (mk_db (user_configs st)
             (food_templates st ++
              [FoodTemplate.make (next_id FoodTemplate.id (food_templates st))
                 name (sqlite_stored carb_ratio) (sqlite_stored protein_ratio)
                 (sqlite_stored fat_ratio) calories])
             (daily_records st),
       Redirect "templates" [mk_flash "模板添加成功！" None "success"]))).
Proof.
  intros Hm Hc Hc' Hp Hp' Hf Hf' total_ratio outcome.
  pose proof (add_template_parsed req st _ _ _ _ _ _ Hm Hc Hc' Hp Hp' Hf Hf') as E.
  fold total_ratio outcome in E.
  split.
  - intros Hgt. rewrite E, Hgt. reflexivity.
  - intros name Hname Hcal Hnan.
    pose proof (le_hundred_iff_not_gt total_ratio Hnan) as Hle.
    destruct (add_not_nan _ _ Hnan) as [Hcp Hnf].
    destruct (add_not_nan _ _ Hcp) as [Hnc Hnp].
    assert (Hcreated : Py.le total_ratio 100 = true ->
      exists calories,
        outcome =
        (mk_db (user_configs st)
               (food_templates st ++
                [FoodTemplate.make (next_id FoodTemplate.id (food_templates st))
                   name (sqlite_stored carb_ratio) (sqlite_stored protein_ratio)
                   (sqlite_stored fat_ratio) calories])
               (daily_records st),
         Redirect "templates" [mk_flash "模板添加成功！" None "success"])).
    { intros H. apply Hle in H. rewrite E, H.
      unfold form_getitem. rewrite Hname. simpl_bind.
      destruct (calories_parsed (form req) None Hcal) as (calories & ->).
      simpl_bind.
      rewrite (not_null_number _ Hnc), (not_null_number _ Hnp), (not_null_number _ Hnf).
      exists calories. reflexivity. }
    split; [|exact Hcreated]. split.
    + intros (template & Ht). apply Hle.
      destruct (Py.gt total_ratio 100) eqn:Hgt; [|reflexivity].
      rewrite E in Ht. cbn [fst] in Ht.
      apply (f_equal length) in Ht. rewrite length_app in Ht. simpl in Ht. lia.
    + intros H. destruct (Hcreated H) as (calories & ->). eauto.
Qed.

(** *** Editing a template *)

Lemma query_get_pk {A : Type} (pk : A -> Z) (table : list A) (id : Z) (row : A) :
  query_get pk table id = Some row -> pk row = id.
Proof.
  unfold query_get. intros H. apply find_some in H as [_ H]. now apply Z.eqb_eq.
Qed.

Lemma query_get_update_row {A : Type} (pk : A -> Z) (table : list A) (id : Z)
  (row row' : A) :
  query_get pk table id = Some row -> pk row' = id ->
  query_get pk (update_row pk table id row') id = Some row'.
Proof.
  unfold query_get, update_row. intros H Hpk.
  induction table as [|r table IH]; [discriminate|].
  simpl in *. destruct (pk r =? id)%Z eqn:E.
  - rewrite Hpk, Z.eqb_refl. reflexivity.
  - rewrite E. now apply IH.
Qed.

(** C10, as the code has it.  For every edit_template POST on an existing
    template whose form has a name, whose ratio fields parse as numbers (not
    NaN, which the commit refuses) and whose calories field is absent, empty
    or a number, the new ratios are committed, as SQLite gives them back, and
    the edit succeeds, whatever the sum of the ratios; when the sum exceeds
    100, add_template rejects the same form: the check on the sum is made
    only at creation. *)
Theorem edit_template_no_sum_check (id : Z) (req : http_request) (st : db)
  (template : FoodTemplate.t) (name s_carb s_protein s_fat : string)
  (carb_ratio protein_ratio fat_ratio : float) :
  query_get FoodTemplate.id (food_templates st) id = Some template ->
  method req = POST ->
  form req !! "name" = Some name ->
  form req !! "carb_ratio" = Some s_carb -> py_float s_carb = Some carb_ratio ->
  form req !! "protein_ratio" = Some s_protein -> py_float s_protein = Some protein_ratio ->
  form req !! "fat_ratio" = Some s_fat -> py_float s_fat = Some fat_ratio ->
  is_nan carb_ratio = false -> is_nan protein_ratio = false ->
  is_nan fat_ratio = false ->
  calories_field_ok py_float (form req) ->
  exists calories,
    let template' := FoodTemplate.make id name (sqlite_stored carb_ratio)
                       (sqlite_stored protein_ratio) (sqlite_stored fat_ratio)
                       calories in
    edit_template py_float id req st =
    (mk_db (user_configs st)
           (update_row FoodTemplate.id (food_templates st) id template')
           (daily_records st),
     Redirect "templates" [mk_flash "模板已更新！" None "success"]) /\
    query_get FoodTemplate.id
      (food_templates (fst (edit_template py_float id req st))) id = Some template' /\
    (Py.gt (carb_ratio + protein_ratio + fat_ratio) 100 = true ->
     add_template py_float req st =
     (st, Render "add_template.html"
            [mk_flash "营养比例总和不能超过100%！" None "error"])).
Proof.
  intros Hq Hm Hname Hc Hc' Hp Hp' Hf Hf' Hnc Hnp Hnf Hcal.
  destruct (calories_parsed (form req) (FoodTemplate.calories template) Hcal)
    as (calories & Ecal).
  exists calories. cbv zeta.
  assert (E : edit_template py_float id req st =
    (mk_db (user_configs st)
       (update_row FoodTemplate.id (food_templates st) id
          (FoodTemplate.make id name (sqlite_stored carb_ratio)
             (sqlite_stored protein_ratio) (sqlite_stored fat_ratio) calories))
       (daily_records st),
     Redirect "templates" [mk_flash "模板已更新！" None "success"])).
  { unfold edit_template. rewrite Hq, Hm. unfold form_getitem at 1. rewrite Hname.
    simpl_bind.
    rewrite (float_field_parsed _ _ _ _ Hc Hc'), (float_field_parsed _ _ _ _ Hp Hp'),
      (float_field_parsed _ _ _ _ Hf Hf').
    simpl_bind. rewrite Ecal. simpl_bind.
    rewrite (not_null_number _ Hnc), (not_null_number _ Hnp), (not_null_number _ Hnf).
    simpl_bind. now rewrite (query_get_pk _ _ _ _ Hq). }
  split; [exact E|]. split.
  - rewrite E. cbn [fst food_templates].
    now apply (query_get_update_row _ _ _ template).
  - intros Hgt.
    rewrite (add_template_parsed req st _ _ _ _ _ _ Hm Hc Hc' Hp Hp' Hf Hf'), Hgt.
    reflexivity.
Qed.

(** *** The records table under the handlers *)


#[local] Abbreviation handle' := (handle py_float py_int strptime_hm today now_hm).
#[local] Abbreviation run' := (run py_float py_int strptime_hm today now_hm).

Lemma add_template_records (req : http_request) (st : db) :
  daily_records (fst (add_template py_float req st)) = daily_records st.
Proof.
  unfold add_template. destruct (method req); [reflexivity|].
  destruct (float_field py_float (form req) "carb_ratio") as [c|[]];
    simpl_bind; try reflexivity.
  destruct (float_field py_float (form req) "protein_ratio") as [p|[]];
    simpl_bind; try reflexivity.
  destruct (float_field py_float (form req) "fat_ratio") as [f|[]];
    simpl_bind; try reflexivity.
  destruct (Py.gt (c + p + f) 100); [reflexivity|].
  destruct (form_getitem (form req) "name") as [n|[]];
    simpl_bind; try reflexivity.
  assert (Hcommit : forall calories : option float,
    daily_records (fst
      match
        (carb_ratio ← not_null c; protein_ratio ← not_null p;
         fat_ratio ← not_null f;
         Ok (mk_db (user_configs st)
               (food_templates st ++
                [FoodTemplate.make (next_id FoodTemplate.id (food_templates st)) n
                   carb_ratio protein_ratio fat_ratio calories])
               (daily_records st),
             Redirect "templates" [mk_flash "模板添加成功！" None "success"]))
      with
      | Ok outcome => outcome
      | Raise ValueError =>
          (st, Render "add_template.html" [mk_flash "请输入有效的数字！" None "error"])
      | Raise e =>
          (st, Render "add_template.html" [mk_flash "添加失败: " (Some e) "error"])
      end) = daily_records st).
  { intros calories.
    destruct (not_null c) as [?|[]]; simpl_bind; try reflexivity.
    destruct (not_null p) as [?|[]]; simpl_bind; try reflexivity.
    destruct (not_null f) as [?|[]]; simpl_bind; reflexivity. }
  destruct (truthy (form req !! "calories")); [|apply Hcommit].
  destruct (float_field py_float (form req) "calories") as [k|[]];
    simpl_bind; first [apply Hcommit | reflexivity].
Qed.

(** One request: a template edit or delete leaves the records table as it
    is; any route but delete_record keeps every row in place. *)
Lemma handle_records (r : route) (req : http_request) (st : db) :
  (is_template_change r = true ->
   daily_records (fst (handle' r req st)) = daily_records st) /\
  (is_delete_record r = false ->
   exists added, daily_records (fst (handle' r req st)) = daily_records st ++ added).
Proof.
  assert (Hsame : forall st', daily_records st' = daily_records st ->
            exists added, daily_records st' = daily_records st ++ added).
  { intros st' ->. exists []. now rewrite app_nil_r. }
  destruct r; cbn [handle is_template_change is_delete_record];
    (split; [try discriminate | try discriminate]); intros _.
  - apply Hsame. unfold index. repeat case_match; reflexivity.
  - apply Hsame. unfold config. repeat case_match; reflexivity.
  - unfold add_record. repeat case_match; cbn [fst daily_records];
      first [ now apply Hsame | eexists; reflexivity ].
  - apply Hsame, add_template_records.
  - now apply Hsame.
  - apply Hsame. unfold history. repeat case_match; reflexivity.
  - apply Hsame. unfold api_progress. repeat case_match; reflexivity.
  - unfold delete_template. repeat case_match; reflexivity.
  - apply Hsame. unfold delete_template. repeat case_match; reflexivity.
  - unfold edit_template. repeat case_match; reflexivity.
  - apply Hsame. unfold edit_template. repeat case_match; reflexivity.
Qed.

(** C8. Editing or deleting food templates, in any number and order, leaves
    the records table as it is, so every record keeps its macro ratios and
    its weight; under any sequence of requests without delete_record every
    stored record stays in place, unmodified; and delete_record only removes
    the rows with the given id. *)
Theorem records_frame (requests : list (route * http_request)) (st : db) :
  (Forall (fun rq => is_template_change (fst rq) = true) requests ->
   daily_records (run' requests st) = daily_records st) /\
  (Forall (fun rq => is_delete_record (fst rq) = false) requests ->
   forall (i : nat) (record : DailyRecord.t),
     daily_records st !! i = Some record ->
     daily_records (run' requests st) !! i = Some record) /\
  (forall id req,
     daily_records (fst (handle' (RDeleteRecord id) req st)) =
     delete_row DailyRecord.id (daily_records st) id /\
     forall record, record ∈ daily_records (fst (handle' (RDeleteRecord id) req st)) ->
       record ∈ daily_records st).
Proof.
  split; [|split].
  - revert st. induction requests as [|[r req] rest IH]; intros st H; [reflexivity|].
    apply Forall_cons in H as [Hr Hrest]. cbn [run fold_left fst snd].
    fold (run' rest (fst (handle' r req st))). rewrite (IH _ Hrest).
    now apply handle_records.
  - revert st. induction requests as [|[r req] rest IH]; intros st H i record Hi;
      [exact Hi|].
    apply Forall_cons in H as [Hr Hrest]. cbn [run fold_left fst snd].
    fold (run' rest (fst (handle' r req st))). apply (IH _ Hrest).
    destruct (proj2 (handle_records r req st) Hr) as (added & ->).
    now apply lookup_app_l_Some.
  - intros id req. cbn [handle]. unfold delete_record.
    assert (Hdel : forall table : list DailyRecord.t,
              query_get DailyRecord.id table id = None ->
              delete_row DailyRecord.id table id = table).
    { intros table. unfold query_get, delete_row.
      induction table as [|r table IH]; [reflexivity|]. simpl.
      destruct (DailyRecord.id r =? id)%Z; [discriminate|].
      intros H. simpl. now rewrite (IH H). }
    destruct (query_get DailyRecord.id (daily_records st) id) eqn:E; cbn [fst daily_records].
    + split; [reflexivity|]. intros record Hin. unfold delete_row in Hin.
      apply list_elem_of_In, filter_In in Hin as [Hin _]. now apply list_elem_of_In.
    + split; [now rewrite (Hdel _ E) | auto].
Qed.

End HandlerFacts.

(** ** The handlers on sample requests *)

Section HandlerExamples.

Lemma add_template_sum_check_witness :
  exists template,
    food_templates (fst (add_template float_of_digits post_oats db_one_template)) =
    food_templates db_one_template ++ [template].
Proof.
  destruct (add_template_sum_check float_of_digits post_oats db_one_template
              "10" "10" "10" 10 10 10) as [_ H]; try reflexivity.
  destruct (H "oats") as [Hiff _]; try reflexivity.
  - left. reflexivity.
  - apply Hiff. reflexivity.
Defined.

(** C7 as stated fails: the three ratios parse and sum to 30, yet no template
    is created, because the calories field is not a number. *)
Lemma add_template_bad_calories :
  method post_oats_bad_calories = POST /\
  float_field float_of_digits (form post_oats_bad_calories) "carb_ratio" = Ok 10%float /\
  float_field float_of_digits (form post_oats_bad_calories) "protein_ratio" = Ok 10%float /\
  float_field float_of_digits (form post_oats_bad_calories) "fat_ratio" = Ok 10%float /\
  Py.le (10 + 10 + 10) 100 = true /\
  add_template float_of_digits post_oats_bad_calories db_one_template =
  (db_one_template,
   Render "add_template.html" [mk_flash "请输入有效的数字！" None "error"]).
Proof. repeat split. Qed.

Lemma edit_template_no_sum_check_witness :
  Py.gt (50 + 40 + 30) 100 = true /\
  query_get FoodTemplate.id
    (food_templates (fst (edit_template float_of_digits 1 post_rice_120 db_one_template)))
    1 = Some (FoodTemplate.make 1 "rice" 50 40 30 None) /\
  add_template float_of_digits post_rice_120 db_one_template =
  (db_one_template,
   Render "add_template.html" [mk_flash "营养比例总和不能超过100%！" None "error"]).
Proof.
  destruct (edit_template_no_sum_check float_of_digits 1 post_rice_120 db_one_template
              rice_template "rice" "50" "40" "30" 50 40 30)
    as (calories & E & Hq & Hadd); try reflexivity.
  - left. reflexivity.
  - split; [reflexivity|]. split; [|apply Hadd; reflexivity].
    rewrite Hq. vm_compute in E.
    change (sqlite_stored 50) with 50%float. change (sqlite_stored 40) with 40%float.
    change (sqlite_stored 30) with 30%float. congruence.
Defined.

(** C10 as stated fails: the ratio fields parse, yet nothing is committed,
    because the calories field is not a number. *)
Lemma edit_template_bad_calories :
  method post_oats_bad_calories = POST /\
  float_field float_of_digits (form post_oats_bad_calories) "carb_ratio" = Ok 10%float /\
  float_field float_of_digits (form post_oats_bad_calories) "protein_ratio" = Ok 10%float /\
  float_field float_of_digits (form post_oats_bad_calories) "fat_ratio" = Ok 10%float /\
  query_get FoodTemplate.id (food_templates db_one_template) 1 = Some rice_template /\
  edit_template float_of_digits 1 post_oats_bad_calories db_one_template =
  (db_one_template,
   Render "edit_template.html" [mk_flash "更新失败: " (Some ValueError) "error"]).
Proof. repeat split. Qed.

Lemma records_frame_witness :
  daily_records
    (run float_of_digits int_of_digits time_of_hm new_year "12:00"
       [(REditTemplate 1, post_rice_120); (RDeleteTemplate 1, get_request)]
       db_one_record) = [rice].
Proof.
  apply (proj1 (records_frame float_of_digits int_of_digits time_of_hm new_year
                  "12:00" _ db_one_record)).
  repeat constructor.
Defined.

End HandlerExamples.

(** ** What the handlers do to the tables *)

Section HandlerOutcomes.

Variable py_float : string -> option float.
Variable py_int : string -> option Z.
Variable strptime_hm : string -> option time.
Variable today : date.
Variable now_hm : string.

#[local] Abbreviation handle_ := (handle py_float py_int strptime_hm today now_hm).
#[local] Abbreviation run_ := (run py_float py_int strptime_hm today now_hm).
#[local] Abbreviation add_record_ := (add_record py_float py_int strptime_hm today now_hm).

Lemma bind_ok {A B : Type} (m : result A) (f : A -> result B) (b : B) :
  m ≫= f = Ok b -> exists a, m = Ok a /\ f a = Ok b.
Proof. destruct m as [a|e]; [eauto | discriminate]. Qed.

Ltac inv_binds H :=
  repeat (let a := fresh "a" in let E := fresh "E" in
          apply bind_ok in H as (a & E & H)).

(** *** Primary keys *)

Lemma fold_max_upper (ids : list Z) (x : Z) :
  x ∈ ids -> (x <= fold_right Z.max 0 ids)%Z.
Proof.
  induction ids as [|y ids IH]; intros H; [now apply elem_of_nil in H|].
  apply elem_of_cons in H as [-> | H]; simpl; [lia|]. specialize (IH H). lia.
Qed.

(** The next rowid is not the key of any row. *)
Lemma next_id_fresh {A : Type} (pk : A -> Z) (table : list A) :
  next_id pk table ∉ map pk table.
Proof.
  intros H. apply fold_max_upper in H. unfold next_id in H. lia.
Qed.

Lemma NoDup_snoc_next_id {A : Type} (pk : A -> Z) (table : list A) (row : A) :
  pk row = next_id pk table -> NoDup (map pk table) ->
  NoDup (map pk (table ++ [row])).
Proof.
  intros Hpk Hnd. rewrite map_app. apply NoDup_app. split; [exact Hnd|]. split.
  - intros x Hx Hx'. simpl in Hx'. apply list_elem_of_singleton in Hx'. subst x.
    rewrite Hpk in Hx. now apply next_id_fresh in Hx.
  - simpl. apply NoDup_singleton.
Qed.

Lemma map_pk_update_row {A : Type} (pk : A -> Z) (table : list A) (id : Z) (row' : A) :
  pk row' = id -> map pk (update_row pk table id row') = map pk table.
Proof.
  intros Hpk. unfold update_row. induction table as [|r table IH]; [reflexivity|].
  simpl. rewrite IH. destruct (pk r =? id)%Z eqn:E; [|reflexivity].
  apply Z.eqb_eq in E. congruence.
Qed.

Lemma NoDup_delete_row {A : Type} (pk : A -> Z) (table : list A) (id : Z) :
  NoDup (map pk table) -> NoDup (map pk (delete_row pk table id)).
Proof.
  unfold delete_row. induction table as [|r table IH]; intros H; [exact H|].
  simpl in H. apply NoDup_cons in H as [Hr H]. simpl.
  destruct (negb (pk r =? id)%Z); [|now apply IH].
  simpl. apply NoDup_cons. split; [|now apply IH].
  intros Hin. apply Hr. apply list_elem_of_fmap in Hin as (x & -> & Hx).
  apply list_elem_of_fmap. exists x. split; [reflexivity|].
  apply list_elem_of_In in Hx. apply filter_In in Hx as [Hx _].
  now apply list_elem_of_In.
Qed.

Lemma query_get_delete_row {A : Type} (pk : A -> Z) (table : list A) (id : Z) :
  query_get pk (delete_row pk table id) id = None.
Proof.
  unfold query_get, delete_row. induction table as [|r table IH]; [reflexivity|].
  simpl. destruct (pk r =? id)%Z eqn:E; simpl; [exact IH|]. now rewrite E.
Qed.

Lemma query_get_delete_row_ne {A : Type} (pk : A -> Z) (table : list A) (id id' : Z) :
  id' <> id -> query_get pk (delete_row pk table id) id' = query_get pk table id'.
Proof.
  intros Hne. unfold query_get, delete_row.
  induction table as [|r table IH]; [reflexivity|].
  simpl. destruct (pk r =? id)%Z eqn:E; simpl.
  - apply Z.eqb_eq in E. destruct (pk r =? id')%Z eqn:E'; [|exact IH].
    apply Z.eqb_eq in E'. congruence.
  - destruct (pk r =? id')%Z; [reflexivity | exact IH].
Qed.

Lemma delete_row_fresh {A : Type} (pk : A -> Z) (table : list A) (n : Z) :
  n ∉ map pk table -> delete_row pk table n = table.
Proof.
  unfold delete_row. induction table as [|r table IH]; intros H; [reflexivity|].
  simpl. destruct (pk r =? n)%Z eqn:E.
  - apply Z.eqb_eq in E. exfalso. apply H. rewrite <- E. simpl. apply list_elem_of_here.
  - simpl. rewrite IH; [reflexivity|]. intros Hin. apply H. simpl.
    now apply list_elem_of_further.
Qed.

Lemma query_get_fresh {A : Type} (pk : A -> Z) (table : list A) (n : Z) :
  n ∉ map pk table -> query_get pk table n = None.
Proof.
  unfold query_get. induction table as [|r table IH]; intros H; [reflexivity|].
  simpl. destruct (pk r =? n)%Z eqn:E.
  - apply Z.eqb_eq in E. exfalso. apply H. rewrite <- E. simpl. apply list_elem_of_here.
  - apply IH. intros Hin. apply H. simpl. now apply list_elem_of_further.
Qed.

Lemma query_get_app {A : Type} (pk : A -> Z) (t1 t2 : list A) (n : Z) :
  query_get pk (t1 ++ t2) n =
  match query_get pk t1 n with
  | Some row => Some row
  | None => query_get pk t2 n
  end.
Proof.
  unfold query_get. induction t1 as [|r t1 IH]; [reflexivity|].
  simpl. destruct (pk r =? n)%Z; [reflexivity | exact IH].
Qed.

Lemma delete_row_snoc_next_id {A : Type} (pk : A -> Z) (table : list A) (row : A) :
  pk row = next_id pk table ->
  delete_row pk (table ++ [row]) (next_id pk table) = table.
Proof.
  intros Hpk. unfold delete_row. rewrite List.filter_app. simpl.
  rewrite Hpk, Z.eqb_refl. simpl. rewrite app_nil_r.
  apply delete_row_fresh, next_id_fresh.
Qed.

Lemma query_get_snoc_next_id {A : Type} (pk : A -> Z) (table : list A) (row : A) :
  pk row = next_id pk table ->
  query_get pk (table ++ [row]) (next_id pk table) = Some row.
Proof.
  intros Hpk. rewrite query_get_app, (query_get_fresh pk table) by apply next_id_fresh.
  unfold query_get. simpl. now rewrite Hpk, Z.eqb_refl.
Qed.

(** *** add_record *)

(** Either nothing is stored and the form is rendered again, or one record,
    dated today and carrying the next rowid, is appended. *)
Lemma add_record_shape (req : http_request) (st : db) :
  (fst (add_record_ req st) = st /\
   exists flashes, snd (add_record_ req st) = Render "add_record.html" flashes) \/
  (exists record,
     add_record_ req st =
     (mk_db (user_configs st) (food_templates st) (daily_records st ++ [record]),
      Redirect "index" [mk_flash "记录添加成功！" None "success"]) /\
     DailyRecord.id record = next_id DailyRecord.id (daily_records st) /\
     DailyRecord.date record = today).
Proof.
  unfold add_record. destruct (method req); [left; eauto|].
  match goal with
  | |- context [match ?x with Ok _ => _ | Raise _ => _ end] => destruct x as [record|e] eqn:H
  end.
  - right. exists record. split; [reflexivity|].
    inv_binds H. destruct a1 as [[c p] f]. inv_binds H.
    injection H as <-. split; reflexivity.
  - left. destruct e; eauto.
Qed.

(** *** add_template, edit_template, config *)

Ltac destruct_attempt H :=
  match goal with
  | |- context [match ?x with Ok _ => _ | Raise _ => _ end] =>
      let v := fresh "v" in let e := fresh "e" in destruct x as [v|e] eqn:H
  end.

Lemma add_template_shape (req : http_request) (st : db) :
  (fst (add_template py_float req st) = st /\
   exists flashes, snd (add_template py_float req st) = Render "add_template.html" flashes) \/
  (exists template,
     add_template py_float req st =
     (mk_db (user_configs st) (food_templates st ++ [template]) (daily_records st),
      Redirect "templates" [mk_flash "模板添加成功！" None "success"]) /\
     FoodTemplate.id template = next_id FoodTemplate.id (food_templates st)).
Proof.
  unfold add_template. destruct (method req); [left; eauto|].
  destruct_attempt H.
  - inv_binds H. destruct (Py.gt (a + a0 + a1) 100) eqn:Hgt.
    + injection H as <-. left. eauto.
    + inv_binds H. injection H as <-. right. eexists. split; reflexivity.
  - left. destruct e; eauto.
Qed.

Lemma edit_template_shape (id : Z) (req : http_request) (st : db) :
  fst (edit_template py_float id req st) = st \/
  (exists template template',
     query_get FoodTemplate.id (food_templates st) id = Some template /\
     edit_template py_float id req st =
     (mk_db (user_configs st)
            (update_row FoodTemplate.id (food_templates st) id template')
            (daily_records st),
      Redirect "templates" [mk_flash "模板已更新！" None "success"]) /\
     FoodTemplate.id template' = id).
Proof.
  unfold edit_template.
  destruct (query_get FoodTemplate.id (food_templates st) id) as [template|] eqn:Hq;
    [|now left].
  destruct (method req); [now left|].
  destruct_attempt H; [|now left].
  right. exists template, v. split; [reflexivity|]. split; [reflexivity|].
  inv_binds H. injection H as <-. simpl. now apply (query_get_pk _ _ _ _ Hq).
Qed.

Lemma config_shape (req : http_request) (st : db) :
  fst (config py_float req st) = st \/
  (exists c rest user_config,
     user_configs st = c :: rest /\
     config py_float req st =
     (mk_db (user_config :: rest) (food_templates st) (daily_records st),
      Redirect "index" [mk_flash "配置已更新！" None "success"]) /\
     UserConfig.id user_config = UserConfig.id c).
Proof.
  unfold config. destruct (method req); [now left|].
  destruct_attempt H.
  - right. inv_binds H. injection H as <-.
    destruct (user_configs st) as [|c rest]; [discriminate|].
    injection E0 as <-. exists c, rest. eexists. split; [reflexivity|].
    split; reflexivity.
  - left. destruct e; reflexivity.
Qed.

(** *** Primary keys stay unique *)

Lemma handle_pk_unique (r : route) (req : http_request) (st : db) :
  pk_unique st -> pk_unique (fst (handle_ r req st)).
Proof.
  intros (Hc & Ht & Hr). destruct r; cbn [handle].
  - unfold index. repeat case_match; now repeat split.
  - destruct (config_shape req st) as [-> | (c & rest & cfg & Hu & -> & Hid)];
      [now repeat split|].
    repeat split; cbn [fst user_configs food_templates daily_records]; try assumption.
    rewrite Hu in Hc. simpl in *. now rewrite Hid.
  - destruct (add_record_shape req st) as [[-> _] | (record & -> & Hid & _)];
      [now repeat split|].
    repeat split; cbn [fst user_configs food_templates daily_records]; try assumption.
    now apply NoDup_snoc_next_id.
  - destruct (add_template_shape req st) as [[-> _] | (template & -> & Hid)];
      [now repeat split|].
    repeat split; cbn [fst user_configs food_templates daily_records]; try assumption.
    now apply NoDup_snoc_next_id.
  - now repeat split.
  - unfold history. repeat case_match; now repeat split.
  - unfold api_progress. repeat case_match; now repeat split.
  - unfold delete_record. case_match; [|now repeat split].
    repeat split; cbn [fst user_configs food_templates daily_records]; try assumption.
    now apply NoDup_delete_row.
  - unfold delete_template. case_match; [|now repeat split].
    repeat split; cbn [fst user_configs food_templates daily_records]; try assumption.
    now apply NoDup_delete_row.
  - destruct (edit_template_shape id req st) as [-> | (t & t' & _ & -> & Hid)];
      [now repeat split|].
    repeat split; cbn [fst user_configs food_templates daily_records]; try assumption.
    now rewrite map_pk_update_row.
Qed.

Lemma sample_templates_pk_unique (samples : list (string * float * float * float)) :
  forall table : list FoodTemplate.t,
  NoDup (map FoodTemplate.id table) ->
  NoDup (map FoodTemplate.id
           (fold_left
              (fun table '(name, carb, protein, fat) =>
                 table ++ [FoodTemplate.make (next_id FoodTemplate.id table) name
                             carb protein fat None])
              samples table)).
Proof.
  induction samples as [|[[[name c] p] f] samples IH]; intros table H; [exact H|].
  simpl. apply IH. now apply NoDup_snoc_next_id.
Qed.

(** X1. Primary keys stay unique: when no two rows of a table share their id,
    the same holds after [init_database] and after any sequence of requests,
    because an inserted row takes a rowid above every stored one, an edit
    keeps the id of its row, and a delete only removes rows. *)
Theorem pk_unique_preserved (requests : list (route * http_request)) (st : db) :
  pk_unique st ->
  pk_unique (init_database st) /\ pk_unique (run_ requests st).
Proof.
  intros H. split.
  - unfold init_database. destruct (head (user_configs st)); [exact H|].
    destruct H as (Hc & Ht & Hr).
    repeat split; cbn [user_configs food_templates daily_records]; try assumption.
    + now apply NoDup_snoc_next_id.
    + now apply sample_templates_pk_unique.
  - revert st H. induction requests as [|[r req] rest IH]; intros st H; [exact H|].
    cbn [run fold_left fst snd]. apply IH. now apply handle_pk_unique.
Qed.

(** *** The extras on add_record *)

(** X2. [add_record] is all or nothing and touches the records table only:
    the configuration and the templates are never changed; either the answer
    is the success redirect and exactly one record is appended, dated today,
    which a lookup by its id finds, or the form is rendered again and the
    database is as before. *)
Theorem add_record_atomic (req : http_request) (st : db) :
  let st' := fst (add_record_ req st) in
  let answer := snd (add_record_ req st) in
  user_configs st' = user_configs st /\
  food_templates st' = food_templates st /\
  ((answer = Redirect "index" [mk_flash "记录添加成功！" None "success"] /\
    exists record,
      daily_records st' = daily_records st ++ [record] /\
      DailyRecord.date record = today /\
      query_get DailyRecord.id (daily_records st') (DailyRecord.id record) = Some record) \/
   (st' = st /\ exists flashes, answer = Render "add_record.html" flashes)).
Proof.
  cbv zeta.
  destruct (add_record_shape req st) as [[E Hf] | (record & E & Hid & Hd)].
  - rewrite E. split; [reflexivity|]. split; [reflexivity|]. right. now split.
  - rewrite E. cbn [fst snd user_configs food_templates daily_records].
    split; [reflexivity|]. split; [reflexivity|]. left. split; [reflexivity|].
    exists record. split; [reflexivity|]. split; [exact Hd|].
    rewrite Hid. now apply query_get_snoc_next_id.
Qed.




(** *** Deleting rows *)

Lemma sqlite_integer_above (id : Z) : (2 ^ 63 <= id)%Z -> sqlite_integer id = false.
Proof.
  intros H. unfold sqlite_integer. apply andb_false_intro2, Z.ltb_ge, H.
Qed.


(** X5. [delete_record] removes the record with the given id and nothing
    else: an unknown id is answered with 404, or, when it is too large for
    SQLite's 64-bit integers, fails with the OverflowError of the lookup, and
    changes nothing; otherwise a lookup of that id finds nothing afterwards,
    every other id is looked up as before, and the configuration and the
    templates are untouched. *)
Theorem delete_record_spec (id : Z) (st : db) :
  (query_get DailyRecord.id (daily_records st) id = None ->
   (sqlite_integer id = true -> delete_record id st = (st, Abort 404)) /\
   ((2 ^ 63 <= id)%Z -> delete_record id st = (st, Uncaught OverflowError))) /\
  (is_Some (query_get DailyRecord.id (daily_records st) id) ->
   let st' := fst (delete_record id st) in
   snd (delete_record id st) = Redirect "index" [mk_flash "记录已删除！" None "success"] /\
   query_get DailyRecord.id (daily_records st') id = None /\
   (forall id', id' <> id ->
      query_get DailyRecord.id (daily_records st') id' =
      query_get DailyRecord.id (daily_records st) id') /\
   user_configs st' = user_configs st /\ food_templates st' = food_templates st).
Proof.
  unfold delete_record. split.
  - intros ->. unfold not_found. split.
    + now intros ->.
    + intros Hid. now rewrite (sqlite_integer_above id Hid).
  - intros [row ->]. cbn [fst snd daily_records user_configs food_templates].
    split; [reflexivity|]. split; [apply query_get_delete_row|].
    split; [|split; reflexivity].
    intros id' Hne. now apply query_get_delete_row_ne.
Qed.

(** X6. [delete_template] removes the template with the given id and does not
    cascade: an unknown id is answered with 404, or, when it is too large for
    SQLite's 64-bit integers, fails with the OverflowError of the lookup, and
    changes nothing; otherwise a lookup of that id finds nothing afterwards,
    every other template is looked up as before, and the records table is
    left as it is, the records whose [template_id] names the deleted template
    included. *)
Theorem delete_template_spec (id : Z) (st : db) :
  (query_get FoodTemplate.id (food_templates st) id = None ->
   (sqlite_integer id = true -> delete_template id st = (st, Abort 404)) /\
   ((2 ^ 63 <= id)%Z -> delete_template id st = (st, Uncaught OverflowError))) /\
  (is_Some (query_get FoodTemplate.id (food_templates st) id) ->
   let st' := fst (delete_template id st) in
   snd (delete_template id st) =
   Redirect "templates" [mk_flash "模板已删除！" None "success"] /\
   query_get FoodTemplate.id (food_templates st') id = None /\
   (forall id', id' <> id ->
      query_get FoodTemplate.id (food_templates st') id' =
      query_get FoodTemplate.id (food_templates st) id') /\
   user_configs st' = user_configs st /\ daily_records st' = daily_records st).
Proof.
  unfold delete_template. split.
  - intros ->. unfold not_found. split.
    + now intros ->.
    + intros Hid. now rewrite (sqlite_integer_above id Hid).
  - intros [row ->]. cbn [fst snd daily_records user_configs food_templates].
    split; [reflexivity|]. split; [apply query_get_delete_row|].
    split; [|split; reflexivity].
    intros id' Hne. now apply query_get_delete_row_ne.
Qed.

(** X7. Adding a template and deleting it again is a round trip: the created
    template is found under its id, and [delete_template] on that id gives
    back the database as it was before the creation. *)
Theorem add_then_delete_template (req : http_request) (st : db)
  (template : FoodTemplate.t) :
  food_templates (fst (add_template py_float req st)) = food_templates st ++ [template] ->
  let st' := fst (add_template py_float req st) in
  query_get FoodTemplate.id (food_templates st') (FoodTemplate.id template) =
  Some template /\
  delete_template (FoodTemplate.id template) st' =
  (st, Redirect "templates" [mk_flash "模板已删除！" None "success"]).
Proof.
  intros H. cbv zeta.
  destruct (add_template_shape req st) as [[E _] | (t & E & Hid)].
  - rewrite E in H. apply (f_equal length) in H. rewrite length_app in H.
    simpl in H. lia.
  - rewrite E in H |- *. cbn [fst food_templates] in H |- *.
    apply app_inj_tail in H as [_ ->].
    pose proof (query_get_snoc_next_id FoodTemplate.id (food_templates st) template Hid)
      as Hq.
    rewrite Hid. split; [exact Hq|].
    unfold delete_template. cbn [food_templates user_configs daily_records].
    rewrite Hq, (delete_row_snoc_next_id _ _ _ Hid). now destruct st.
Qed.

(** *** Editing a template, the other rows *)

Lemma query_get_update_row_ne {A : Type} (pk : A -> Z) (table : list A) (id id' : Z)
  (row' : A) :
  pk row' = id -> id' <> id ->
  query_get pk (update_row pk table id row') id' = query_get pk table id'.
Proof.
  intros Hpk Hne. unfold query_get, update_row.
  induction table as [|r table IH]; [reflexivity|].
  simpl. destruct (pk r =? id)%Z eqn:E.
  - apply Z.eqb_eq in E.
    assert (E1 : (pk row' =? id')%Z = false) by (apply Z.eqb_neq; congruence).
    assert (E2 : (pk r =? id')%Z = false) by (apply Z.eqb_neq; congruence).
    rewrite E1, E2. exact IH.
  - destruct (pk r =? id')%Z; [reflexivity | exact IH].
Qed.

(** X8. [edit_template] changes at most the template it is asked to change:
    whatever the request, the configuration and the records are untouched,
    no template is added, removed or given another id, and every template
    with another id is looked up as before; an unknown id is answered with
    404, or, when it is too large for SQLite's 64-bit integers, fails with
    the OverflowError of the lookup, which is made outside the [try]. *)
Theorem edit_template_frame (id : Z) (req : http_request) (st : db) :
  let st' := fst (edit_template py_float id req st) in
  user_configs st' = user_configs st /\
  daily_records st' = daily_records st /\
  map FoodTemplate.id (food_templates st') = map FoodTemplate.id (food_templates st) /\
  (forall id', id' <> id ->
     query_get FoodTemplate.id (food_templates st') id' =
     query_get FoodTemplate.id (food_templates st) id') /\
  (query_get FoodTemplate.id (food_templates st) id = None ->
   (sqlite_integer id = true -> edit_template py_float id req st = (st, Abort 404)) /\
   ((2 ^ 63 <= id)%Z ->
    edit_template py_float id req st = (st, Uncaught OverflowError))).
Proof.
  cbv zeta. split; [|split; [|split; [|split]]].
  5: { unfold edit_template. intros ->. unfold not_found. split.
       - now intros ->.
       - intros Hid. now rewrite (sqlite_integer_above id Hid). }
  all: destruct (edit_template_shape id req st) as [-> | (t & t' & _ & -> & Hid)];
    try reflexivity; cbn [fst user_configs food_templates daily_records].
  - now apply map_pk_update_row.
  - intros id' Hne. now apply query_get_update_row_ne.
Qed.

(** X18. A NaN is never stored as a ratio of a template.  For a POST whose
    form has a name, three ratio fields that parse as numbers and a calories
    field that is absent, empty or a number: when one of the ratios is NaN,
    the sum check of [add_template] lets the form through (a NaN is not above
    100), the commit fails on the [nullable=False] column, and both
    [add_template] and [edit_template] answer with their failure flash for
    the IntegrityError and leave the database as it is. *)
Theorem nan_ratio_not_stored (id : Z) (req : http_request) (st : db)
  (template : FoodTemplate.t) (name s_carb s_protein s_fat : string)
  (carb_ratio protein_ratio fat_ratio : float) :
  method req = POST ->
  form req !! "name" = Some name ->
  form req !! "carb_ratio" = Some s_carb -> py_float s_carb = Some carb_ratio ->
  form req !! "protein_ratio" = Some s_protein -> py_float s_protein = Some protein_ratio ->
  form req !! "fat_ratio" = Some s_fat -> py_float s_fat = Some fat_ratio ->
  calories_field_ok py_float (form req) ->
  Exists (fun x => is_nan x = true) [carb_ratio; protein_ratio; fat_ratio] ->
  Py.gt (carb_ratio + protein_ratio + fat_ratio) 100 = false /\
  add_template py_float req st =
  (st, Render "add_template.html"
         [mk_flash "添加失败: " (Some IntegrityError) "error"]) /\
  (query_get FoodTemplate.id (food_templates st) id = Some template ->
   edit_template py_float id req st =
   (st, Render "edit_template.html"
          [mk_flash "更新失败: " (Some IntegrityError) "error"])).
Proof.
  intros Hm Hname Hc Hc' Hp Hp' Hf Hf' Hcal Hnan.
  rewrite !Exists_cons, Exists_nil in Hnan.
  assert (Hsum : Py.gt (carb_ratio + protein_ratio + fat_ratio) 100 = false).
  { apply gt_nan.
    destruct (is_nan (carb_ratio + protein_ratio + fat_ratio)) eqn:E; [reflexivity|].
    destruct (add_not_nan _ _ E) as [E1 E3]. destruct (add_not_nan _ _ E1) as [E1' E2].
    destruct Hnan as [H | [H | [H | []]]]; congruence. }
  assert (Hcommit : forall (A : Type) (k : float -> float -> float -> result A),
    (carb ← not_null carb_ratio; protein ← not_null protein_ratio;
     fat ← not_null fat_ratio; k carb protein fat) = Raise IntegrityError).
  { intros A k.
    destruct (is_nan carb_ratio) eqn:E1; [now rewrite (not_null_nan _ E1)|].
    rewrite (not_null_number _ E1). simpl_bind.
    destruct (is_nan protein_ratio) eqn:E2; [now rewrite (not_null_nan _ E2)|].
    rewrite (not_null_number _ E2). simpl_bind.
    destruct (is_nan fat_ratio) eqn:E3; [now rewrite (not_null_nan _ E3)|].
    exfalso. destruct Hnan as [H | [H | [H | []]]]; congruence. }
  split; [exact Hsum|]. split.
  - rewrite (add_template_parsed py_float req st _ _ _ _ _ _ Hm Hc Hc' Hp Hp' Hf Hf'), Hsum.
    unfold form_getitem. rewrite Hname. simpl_bind.
    destruct (calories_parsed py_float (form req) None Hcal) as (calories & ->).
    simpl_bind. now rewrite Hcommit.
  - intros Hq. unfold edit_template. rewrite Hq, Hm. unfold form_getitem at 1.
    rewrite Hname. simpl_bind.
    rewrite (float_field_parsed py_float _ _ _ _ Hc Hc'),
      (float_field_parsed py_float _ _ _ _ Hp Hp'),
      (float_field_parsed py_float _ _ _ _ Hf Hf').
    simpl_bind.
    destruct (calories_parsed py_float (form req) (FoodTemplate.calories template) Hcal)
      as (calories & ->).
    simpl_bind. now rewrite Hcommit.
Qed.

(** *** config *)

Lemma float_field_present (form : gmap string string) (k : string) :
  is_Some (form !! k) ->
  (exists s x, form !! k = Some s /\ py_float s = Some x /\
               float_field py_float form k = Ok x) \/
  (exists s, form !! k = Some s /\ py_float s = None /\
             float_field py_float form k = Raise ValueError).
Proof.
  intros [s Hs]. unfold float_field, form_getitem, to_float. rewrite Hs. simpl_bind.
  destruct (py_float s) as [x|] eqn:E; [left | right]; eauto.
Qed.

(** X9. [config] is all or nothing.  For a POST that carries the four fields,
    on a database with a configuration row: when one of the fields is not a
    number, the answer is the invalid-number flash and nothing is changed,
    also when the fields before it were numbers; when all four are numbers
    and none is NaN, the first configuration row takes them, as SQLite gives
    them back, and keeps its id, and the other rows and tables are untouched;
    when all four are numbers and one is NaN, the commit fails with an
    IntegrityError that nothing catches, and nothing is changed. *)
Theorem config_all_or_nothing (req : http_request) (st : db)
  (c : UserConfig.t) (rest : list UserConfig.t) :
  method req = POST ->
  user_configs st = c :: rest ->
  Forall (fun k => is_Some (form req !! k))
         ["weight"; "carb_per_kg"; "protein_per_kg"; "fat_per_kg"] ->
  (Exists (fun k => exists s, form req !! k = Some s /\ py_float s = None)
          ["weight"; "carb_per_kg"; "protein_per_kg"; "fat_per_kg"] ->
   config py_float req st =
   (st, Render "config.html" [mk_flash "请输入有效的数字！" None "error"])) /\
  (forall weight carb_per_kg protein_per_kg fat_per_kg,
   float_field py_float (form req) "weight" = Ok weight ->
   float_field py_float (form req) "carb_per_kg" = Ok carb_per_kg ->
   float_field py_float (form req) "protein_per_kg" = Ok protein_per_kg ->
   float_field py_float (form req) "fat_per_kg" = Ok fat_per_kg ->
   (Forall (fun x => is_nan x = false) [weight; carb_per_kg; protein_per_kg; fat_per_kg] ->
    config py_float req st =
    (mk_db (UserConfig.make (UserConfig.id c) (sqlite_stored weight)
              (sqlite_stored carb_per_kg) (sqlite_stored protein_per_kg)
              (sqlite_stored fat_per_kg) :: rest)
           (food_templates st) (daily_records st),
     Redirect "index" [mk_flash "配置已更新！" None "success"])) /\
   (Exists (fun x => is_nan x = true) [weight; carb_per_kg; protein_per_kg; fat_per_kg] ->
    config py_float req st = (st, Uncaught IntegrityError))).
Proof.
  intros Hm Hu Hall. split.
  - intros Hex.
    apply Forall_cons in Hall as [Hw Hall]. apply Forall_cons in Hall as [Hc Hall].
    apply Forall_cons in Hall as [Hp Hall]. apply Forall_cons in Hall as [Hf _].
    unfold config. rewrite Hm, Hu. cbn [head].
    destruct (float_field_present _ _ Hw) as [(sw & w & Ew & Ew' & ->) | (sw & Ew & Ew' & ->)];
      [simpl_bind | reflexivity].
    destruct (float_field_present _ _ Hc) as [(sc & ck & Ec & Ec' & ->) | (sc & Ec & Ec' & ->)];
      [simpl_bind | reflexivity].
    destruct (float_field_present _ _ Hp) as [(sp & pk & Ep & Ep' & ->) | (sp & Ep & Ep' & ->)];
      [simpl_bind | reflexivity].
    destruct (float_field_present _ _ Hf) as [(sf & fk & Ef & Ef' & ->) | (sf & Ef & Ef' & ->)];
      [simpl_bind | reflexivity].
    exfalso. rewrite !Exists_cons, Exists_nil in Hex.
    destruct Hex as [(s & Hs & Hn) | [(s & Hs & Hn) | [(s & Hs & Hn) | [(s & Hs & Hn) | []]]]];
      congruence.
  - intros w ck pk fk Ew Ec Ep Ef.
    assert (E : config py_float req st =
      match (weight ← not_null w; carb_per_kg ← not_null ck;
             protein_per_kg ← not_null pk; fat_per_kg ← not_null fk;
             Ok (UserConfig.make (UserConfig.id c) weight carb_per_kg protein_per_kg
                   fat_per_kg)) with
      | Ok user_config =>
          (mk_db (user_config :: rest) (food_templates st) (daily_records st),
           Redirect "index" [mk_flash "配置已更新！" None "success"])
      | Raise ValueError =>
          (st, Render "config.html" [mk_flash "请输入有效的数字！" None "error"])
      | Raise BadRequestKeyError => (st, Abort 400)
      | Raise e => (st, Uncaught e)
      end).
    { unfold config. rewrite Hm, Hu, Ew. cbn [head tail].
      simpl_bind. rewrite Ec. simpl_bind. rewrite Ep. simpl_bind. rewrite Ef.
      reflexivity. }
    rewrite E. split.
    + intros Hnan.
      apply Forall_cons in Hnan as [Hw Hnan]. apply Forall_cons in Hnan as [Hc Hnan].
      apply Forall_cons in Hnan as [Hp Hnan]. apply Forall_cons in Hnan as [Hf _].
      rewrite (not_null_number _ Hw), (not_null_number _ Hc), (not_null_number _ Hp),
        (not_null_number _ Hf).
      reflexivity.
    + intros Hnan. rewrite !Exists_cons, Exists_nil in Hnan.
      destruct (is_nan w) eqn:Hw; [now rewrite (not_null_nan _ Hw)|].
      rewrite (not_null_number _ Hw). simpl_bind.
      destruct (is_nan ck) eqn:Hc; [now rewrite (not_null_nan _ Hc)|].
      rewrite (not_null_number _ Hc). simpl_bind.
      destruct (is_nan pk) eqn:Hp; [now rewrite (not_null_nan _ Hp)|].
      rewrite (not_null_number _ Hp). simpl_bind.
      destruct (is_nan fk) eqn:Hf; [now rewrite (not_null_nan _ Hf)|].
      exfalso. destruct Hnan as [H | [H | [H | [H | []]]]]; congruence.
Qed.

(** *** Requests that only read *)

(** X10. A GET changes nothing unless it is a delete: for every route but
    delete_record and delete_template, the database after a GET request is
    the database before it. *)
Theorem get_requests_read_only (r : route) (req : http_request) (st : db) :
  method req = GET -> is_delete_route r = false -> fst (handle_ r req st) = st.
Proof.
  intros Hm Hr. destruct r; try discriminate Hr; cbn [handle].
  - unfold index. repeat case_match; reflexivity.
  - unfold config. now rewrite Hm.
  - unfold add_record. now rewrite Hm.
  - unfold add_template. now rewrite Hm.
  - reflexivity.
  - unfold history. repeat case_match; reflexivity.
  - unfold api_progress. repeat case_match; reflexivity.
  - unfold edit_template. rewrite Hm. repeat case_match; reflexivity.
Qed.

(** *** The dashboard and the progress API *)

Lemma get_daily_summary_ok (table : list DailyRecord.t) (d : date)
  (target_date : option date) :
  exists total, get_daily_summary table d target_date = Ok total.
Proof.
  unfold get_daily_summary.
  destruct (for_each_totals (records_on table (default d target_date)) zero_total
              (fun _ => 0%float)) as (total & E & _); [|eauto].
  intros key Hk. destruct (total_keys_cases key Hk) as [-> | [-> | [-> | ->]]];
    reflexivity.
Qed.

(** X11. The dashboard and the progress API fail only for want of a
    configuration row.  Without one both raise AttributeError; with one,
    whatever the records hold, [index] renders the dashboard and
    [api_progress] answers the progress of today's summary, a JSON object
    with exactly the keys carb, protein and fat; neither changes the
    database. *)
Theorem dashboard_total (st : db) :
  (head (user_configs st) = None ->
   index today st = (st, Uncaught AttributeError) /\
   api_progress today st = (st, Uncaught AttributeError)) /\
  (forall user_config, head (user_configs st) = Some user_config ->
   index today st = (st, Render "dashboard.html" []) /\
   exists daily_summary progress,
     get_daily_summary (daily_records st) today None = Ok daily_summary /\
     get_progress user_config daily_summary = Ok progress /\
     api_progress today st = (st, Json progress) /\
     dom progress = list_to_set macro_keys).
Proof.
  split.
  - intros H. unfold index, api_progress. rewrite H. split; reflexivity.
  - intros user_config H. unfold index, api_progress. rewrite H. split.
    + destruct (get_daily_summary_ok (daily_records st) today (Some today)) as (total & ->).
      simpl_bind. now rewrite get_progress_eq.
    + destruct (get_daily_summary_ok (daily_records st) today None) as (total & E).
      exists total. eexists. split; [exact E|]. rewrite E. simpl_bind.
      rewrite get_progress_eq. cbv zeta. repeat split.
Qed.

(** *** init_database *)

(** X12. [init_database] is idempotent and makes the dashboard usable: running
    it twice gives what running it once gives; a database that has a
    configuration row is left as it is; afterwards there is a configuration
    row, so [api_progress] answers with JSON; and the records are never
    touched. *)
Theorem init_database_idempotent (st : db) :
  init_database (init_database st) = init_database st /\
  (is_Some (head (user_configs st)) -> init_database st = st) /\
  is_Some (head (user_configs (init_database st))) /\
  daily_records (init_database st) = daily_records st /\
  exists progress,
    api_progress today (init_database st) = (init_database st, Json progress).
Proof.
  assert (Hsome : is_Some (head (user_configs (init_database st)))).
  { unfold init_database. destruct (head (user_configs st)) eqn:E.
    - rewrite E. eauto.
    - cbn [user_configs]. destruct (user_configs st); [|discriminate]. simpl. eauto. }
  split; [|split; [|split; [exact Hsome|split]]].
  - destruct Hsome as [c Hc]. unfold init_database at 1. now rewrite Hc.
  - intros [c Hc]. unfold init_database. now rewrite Hc.
  - unfold init_database. destruct (head (user_configs st)); reflexivity.
  - destruct Hsome as [c Hc]. unfold api_progress. rewrite Hc.
    destruct (get_daily_summary_ok (daily_records (init_database st)) today None)
      as (total & ->).
    simpl_bind. rewrite get_progress_eq. eauto.
Qed.

End HandlerOutcomes.

(** ** More facts about binary64 arithmetic *)

Section SignFacts.

Lemma binary_normalize_signed (m e : Z) :
  (0 <= m)%Z -> sf_signed false (binary_normalize prec emax m e false) = true.
Proof.
  intros H. destruct m as [|k|k]; [reflexivity | | lia].
  apply (binary_round_signed prec emax false).
Qed.

(** The sum of two numbers that are not negative is not negative. *)
Lemma SFadd_signed (a b : spec_float) :
  sf_signed false a = true -> sf_signed false b = true ->
  sf_signed false (SFadd prec emax a b) = true.
Proof.
  destruct a as [sa|[]| |[] ma ea]; try discriminate;
    destruct b as [sb|[]| |[] mb eb]; try discriminate; intros _ _;
    try reflexivity.
  - destruct sa, sb; reflexivity.
  - unfold SFadd. apply binary_normalize_signed. cbn [cond_Zopp]. lia.
Qed.

Lemma nonneg_finite_cases (x : float) :
  nonneg_finite x = true ->
  (exists s, Prim2SF x = S754_zero s) \/ (exists m e, Prim2SF x = S754_finite false m e).
Proof.
  unfold nonneg_finite. rewrite FloatAxioms.leb_spec, FloatAxioms.ltb_spec.
  change (Prim2SF 0) with (S754_zero false).
  change (Prim2SF infinity) with (S754_infinity false).
  destruct (Prim2SF x) as [s|[]| |[] m e]; try discriminate; eauto.
Qed.

Lemma Prim2SF_four : Prim2SF 4 = S754_finite false 4503599627370496 (-50).
Proof. vm_compute. reflexivity. Qed.

Lemma Prim2SF_nine : Prim2SF 9 = S754_finite false 5066549580791808 (-49).
Proof. vm_compute. reflexivity. Qed.

(** Multiplying or dividing a number that is not negative by a positive
    finite one gives a number that is not negative. *)
Lemma SFmul_signed_pos (a : spec_float) (m : positive) (e : Z) :
  sf_signed false a = true ->
  sf_signed false (SFmul prec emax a (S754_finite false m e)) = true.
Proof.
  destruct a as [sa|[]| |[] ma ea]; try discriminate; intros _; try reflexivity.
  apply (SFmul_signed prec emax false false).
Qed.

Lemma SFdiv_signed_pos (a : spec_float) (m : positive) (e : Z) :
  sf_signed false a = true ->
  sf_signed false (SFdiv prec emax a (S754_finite false m e)) = true.
Proof.
  destruct a as [sa|[]| |[] ma ea]; try discriminate; intros _; try reflexivity.
  apply (SFdiv_signed prec emax false false).
Qed.

(** [weight * ratio / 100] for a weight and a ratio that are finite and not
    negative. *)
Lemma gram_signed (w r : float) :
  nonneg_finite w = true -> nonneg_finite r = true ->
  sf_signed false (Prim2SF (w * r / 100)) = true.
Proof.
  intros Hw Hr. rewrite div_spec, mul_spec, Prim2SF_hundred. unfold SF64div, SF64mul.
  apply SFdiv_signed_pos.
  destruct (nonneg_finite_cases w Hw) as [[s ->] | (m & e & ->)];
    destruct (nonneg_finite_cases r Hr) as [[s' ->] | (m' & e' & ->)];
    try reflexivity.
  apply (SFmul_signed prec emax false false).
Qed.

Lemma add_signed (x y : float) :
  sf_signed false (Prim2SF x) = true -> sf_signed false (Prim2SF y) = true ->
  sf_signed false (Prim2SF (x + y)) = true.
Proof. intros Hx Hy. rewrite add_spec. now apply SFadd_signed. Qed.

(** [consumed / goal * 100] for a goal that is positive and finite. *)
Lemma quotient_signed (c g : float) :
  sf_signed false (Prim2SF c) = true ->
  (0 <? g)%float = true -> g <> infinity ->
  sf_signed false (Prim2SF (c / g * 100)) = true.
Proof.
  intros Hc Hg Hinf. rewrite mul_spec, div_spec, Prim2SF_hundred.
  unfold SF64mul, SF64div. apply SFmul_signed_pos.
  rewrite FloatAxioms.ltb_spec in Hg. change (Prim2SF 0) with (S754_zero false) in Hg.
  destruct (Prim2SF g) as [sg|[]| |[] mg eg] eqn:Eg; try discriminate.
  - exfalso. apply Hinf. rewrite <- (SF2Prim_Prim2SF g), Eg. reflexivity.
  - now apply SFdiv_signed_pos.
Qed.

(** A number that is not NaN and not below zero is at least zero. *)
Lemma le_zero_of_not_lt (x : float) :
  Prim2SF x <> S754_nan -> (x <? 0)%float = false -> (0 <=? x)%float = true.
Proof.
  intros Hn H. rewrite FloatAxioms.ltb_spec in H. rewrite FloatAxioms.leb_spec.
  change (Prim2SF 0) with (S754_zero false) in *.
  apply SFleb_of_not_ltb; [exact Hn | discriminate | exact H].
Qed.

Lemma signed_not_nan (s : bool) (f : spec_float) :
  sf_signed s f = true -> f <> S754_nan.
Proof. intros H E. rewrite E in H. discriminate. Qed.

(** Rounding to one decimal never produces NaN from a number. *)
Lemma round1_not_nan (x : float) :
  Prim2SF x <> S754_nan -> Prim2SF (Py.round1 x) <> S754_nan.
Proof.
  intros H. unfold Py.round1.
  destruct (Prim2SF x) as [s|s| |s m [|p|p]] eqn:E; try (rewrite E; exact H).
  apply (signed_not_nan s), SF2Prim_signed, tenths_signed.
Qed.

(** Rounding to one decimal keeps a number that is not negative so. *)
Lemma round1_signed (x : float) :
  sf_signed false (Prim2SF x) = true -> sf_signed false (Prim2SF (Py.round1 x)) = true.
Proof.
  intros H. unfold Py.round1.
  destruct (Prim2SF x) as [s|s| |s m [|p|p]] eqn:E; try (rewrite E; exact H).
  destruct s; [discriminate H|]. apply SF2Prim_signed, tenths_signed.
Qed.

Lemma finite_number_cases (x : float) :
  finite_number x = true ->
  (exists s, Prim2SF x = S754_zero s) \/ (exists s m e, Prim2SF x = S754_finite s m e).
Proof.
  unfold finite_number. rewrite !FloatAxioms.ltb_spec.
  change (Prim2SF neg_infinity) with (S754_infinity true).
  change (Prim2SF infinity) with (S754_infinity false).
  destruct (Prim2SF x) as [s|[]| |s m e]; try discriminate; eauto.
Qed.

Lemma binary_normalize_not_nan (m e : Z) :
  binary_normalize prec emax m e false <> S754_nan.
Proof.
  destruct m as [|k|k]; [discriminate | |].
  - apply (signed_not_nan false), (binary_round_signed prec emax false).
  - apply (signed_not_nan true), (binary_round_signed prec emax true).
Qed.

(** The difference of two finite numbers is a number. *)
Lemma sub_not_nan (x y : float) :
  finite_number x = true -> finite_number y = true -> Prim2SF (x - y) <> S754_nan.
Proof.
  intros Hx Hy. rewrite sub_spec. unfold SF64sub, SFsub.
  destruct (finite_number_cases x Hx) as [[sx ->] | (sx & mx & ex & ->)];
    destruct (finite_number_cases y Hy) as [[sy ->] | (sy & my & ey & ->)];
    try discriminate.
  - destruct sx; destruct sy; discriminate.
  - apply binary_normalize_not_nan.
Qed.

End SignFacts.

(** ** More on the calculator *)

Section CalculatorMore.

Lemma for_each_app {A B : Type} (body : A -> B -> result A) (xs ys : list B) (acc : A) :
  for_each body (xs ++ ys) acc = for_each body xs acc ≫= for_each body ys.
Proof.
  revert acc. induction xs as [|x xs IH]; intros acc; [reflexivity|].
  simpl. destruct (body acc x) as [acc'|e]; simpl_bind; [apply IH | reflexivity].
Qed.

Lemma records_on_snoc (table : list DailyRecord.t) (record : DailyRecord.t) (d : date) :
  records_on (table ++ [record]) d =
  records_on table d ++ (if decide (DailyRecord.date record = d) then [record] else []).
Proof.
  unfold records_on. now rewrite filter_app.
Qed.

(** The totals of a table that ends with a record of the date, from the
    totals of the table without it. *)
Lemma summary_snoc_same_date (table : list DailyRecord.t) (record : DailyRecord.t)
  (today : date) (target_date : option date) :
  DailyRecord.date record = default today target_date ->
  exists total total',
    get_daily_summary table today target_date = Ok total /\
    get_daily_summary (table ++ [record]) today target_date = Ok total' /\
    forall key, key ∈ total_keys ->
      exists t a, total !! key = Some t /\ nutrient record key = Some a /\
                  total' !! key = Some (t + a)%float.
Proof.
  intros Hd. unfold get_daily_summary. cbv zeta.
  rewrite records_on_snoc, decide_True by exact Hd. rewrite for_each_app.
  destruct (for_each_totals (records_on table (default today target_date)) zero_total
              (fun _ => 0%float)) as (total & E & Ht).
  { intros key Hk. destruct (total_keys_cases key Hk) as [-> | [-> | [-> | ->]]];
      reflexivity. }
  rewrite E. simpl_bind. cbn [for_each].
  destruct (add_record_to_total_spec total _ record Ht) as (total' & E' & Ht').
  rewrite E'. simpl_bind. exists total, total'. split; [reflexivity|].
  split; [reflexivity|]. intros key Hk. eexists. eexists.
  split; [exact (Ht key Hk)|]. split; [now apply nutrient_amount | exact (Ht' key Hk)].
Qed.

(** X13. The summary of a day grows record by record and ignores other days:
    appending a record of another date to the table leaves the summary of the
    day as it is, and appending a record of the day adds, under each of the
    four keys, that record's entry of [calculate_nutrient_amount] to the total
    so far. *)
Theorem get_daily_summary_append (table : list DailyRecord.t) (record : DailyRecord.t)
  (today : date) (target_date : option date) :
  (DailyRecord.date record <> default today target_date ->
   get_daily_summary (table ++ [record]) today target_date =
   get_daily_summary table today target_date) /\
  (DailyRecord.date record = default today target_date ->
   exists total total',
     get_daily_summary table today target_date = Ok total /\
     get_daily_summary (table ++ [record]) today target_date = Ok total' /\
     forall key, key ∈ total_keys ->
       exists t a, total !! key = Some t /\ nutrient record key = Some a /\
                   total' !! key = Some (t + a)%float).
Proof.
  split.
  - intros Hd. unfold get_daily_summary. cbv zeta.
    rewrite records_on_snoc, decide_False by exact Hd. now rewrite app_nil_r.
  - apply summary_snoc_same_date.
Qed.

(** *** Records that are not negative *)

Lemma amount_eq (record : DailyRecord.t) :
  let w := DailyRecord.weight record in
  let carb_g := (w * DailyRecord.carb_ratio record / 100)%float in
  let protein_g := (w * DailyRecord.protein_ratio record / 100)%float in
  let fat_g := (w * DailyRecord.fat_ratio record / 100)%float in
  amount record "carb" = carb_g /\ amount record "protein" = protein_g /\
  amount record "fat" = fat_g /\
  amount record "calories" = (carb_g * 4 + protein_g * 4 + fat_g * 9)%float.
Proof. repeat split. Qed.

Lemma times_signed (x k : float) (m : positive) (e : Z) :
  Prim2SF k = S754_finite false m e ->
  sf_signed false (Prim2SF x) = true -> sf_signed false (Prim2SF (x * k)) = true.
Proof.
  intros Hk Hx. rewrite mul_spec, Hk. now apply SFmul_signed_pos.
Qed.

Lemma amount_signed (record : DailyRecord.t) (key : string) :
  nonneg_record record = true -> key ∈ total_keys ->
  sf_signed false (Prim2SF (amount record key)) = true.
Proof.
  unfold nonneg_record. rewrite !andb_true_iff. intros [[[Hw Hc] Hp] Hf] Hk.
  destruct (amount_eq record) as (Ec & Ep & Ef & Ek). cbv zeta in *.
  pose proof (gram_signed _ _ Hw Hc) as Sc.
  pose proof (gram_signed _ _ Hw Hp) as Sp.
  pose proof (gram_signed _ _ Hw Hf) as Sf.
  destruct (total_keys_cases key Hk) as [-> | [-> | [-> | ->]]].
  - now rewrite Ec.
  - now rewrite Ep.
  - now rewrite Ef.
  - rewrite Ek. apply add_signed; [apply add_signed|].
    + now apply (times_signed _ _ _ _ Prim2SF_four).
    + now apply (times_signed _ _ _ _ Prim2SF_four).
    + now apply (times_signed _ _ _ _ Prim2SF_nine).
Qed.

Lemma fold_add_signed (xs : list float) :
  forall acc : float,
  sf_signed false (Prim2SF acc) = true ->
  Forall (fun x => sf_signed false (Prim2SF x) = true) xs ->
  sf_signed false (Prim2SF (fold_left (fun acc x => (acc + x)%float) xs acc)) = true.
Proof.
  induction xs as [|x xs IH]; intros acc Ha H; [exact Ha|].
  apply Forall_cons in H as [Hx Hxs]. simpl. apply IH; [|exact Hxs].
  now apply add_signed.
Qed.

(** The totals of a day whose records are not negative are not negative. *)
Lemma totals_signed (table : list DailyRecord.t) (today : date)
  (target_date : option date) :
  Forall (fun r => nonneg_record r = true)
         (records_on table (default today target_date)) ->
  exists total, get_daily_summary table today target_date = Ok total /\
    forall key, key ∈ total_keys ->
      exists t, total !! key = Some t /\ sf_signed false (Prim2SF t) = true.
Proof.
  intros Hall. unfold get_daily_summary. cbv zeta.
  destruct (for_each_totals (records_on table (default today target_date)) zero_total
              (fun _ => 0%float)) as (total & E & Ht).
  { intros key Hk. destruct (total_keys_cases key Hk) as [-> | [-> | [-> | ->]]];
      reflexivity. }
  exists total. split; [exact E|]. intros key Hk. eexists. split; [exact (Ht key Hk)|].
  apply fold_add_signed; [reflexivity|].
  apply Forall_fmap. eapply Forall_impl; [exact Hall|].
  intros r Hr. exact (amount_signed r key Hr Hk).
Qed.

(** X14. Records that are not negative give percentages in range.  When every
    record of the day has a weight and ratios that are finite and not
    negative, [get_daily_summary] returns totals that are at least 0, and for
    each macro whose goal is not [+inf] the percentage that [get_progress]
    computes from them lies in the closed interval [0, 100]. *)
Theorem nonneg_records_percentage_in_range (table : list DailyRecord.t) (today : date)
  (target_date : option date) (user_config : UserConfig.t) (key : string) :
  Forall (fun r => nonneg_record r = true)
         (records_on table (default today target_date)) ->
  key ∈ macro_keys ->
  Py.dict_get (calculate_daily_goals user_config) key 1%float <> infinity ->
  exists daily_summary entry,
    get_daily_summary table today target_date = Ok daily_summary /\
    progress_entry_of user_config daily_summary key = Some entry /\
    Py.le 0 (Py.dict_get daily_summary key 0%float) = true /\
    Py.le 0 (percentage entry) = true /\ Py.le (percentage entry) 100 = true.
Proof.
  intros Hall Hk Hinf.
  destruct (totals_signed table today target_date Hall) as (total & E & Ht).
  assert (Hkt : key ∈ total_keys).
  { destruct (macro_keys_cases key Hk) as [-> | [-> | ->]]; unfold total_keys;
      rewrite !elem_of_cons; tauto. }
  destruct (Ht key Hkt) as (t & Et & St).
  exists total. eexists. split; [exact E|].
  split; [now apply progress_entry_of_eq|].
  assert (Hc : Py.dict_get total key 0%float = t)
    by (unfold Py.dict_get; now rewrite Et).
  unfold entry_for. cbn [percentage]. rewrite Hc.
  set (g := Py.dict_get (calculate_daily_goals user_config) key 1%float) in *.
  split.
  { unfold Py.le. rewrite FloatAxioms.leb_spec. change (Prim2SF 0) with (S754_zero false).
    now rewrite SFleb_zero_signed. }
  unfold Py.le. destruct (Py.gt g 0) eqn:Hg; [|split; reflexivity].
  apply round1_in_range; [|apply min_hundred_not_above].
  apply min_hundred_nonneg, quotient_signed; assumption.
Qed.

(** *** A macro that is missing from the summary *)

Lemma zero_quotient (g : float) : Py.gt g 0 = true -> (0 / g * 100 = 0)%float.
Proof.
  unfold Py.gt. rewrite FloatAxioms.ltb_spec. change (Prim2SF 0) with (S754_zero false).
  intros Hg. apply Prim2SF_inj. rewrite mul_spec, div_spec, Prim2SF_hundred.
  change (Prim2SF 0) with (S754_zero false).
  destruct (Prim2SF g) as [sg|[]| |[] mg eg]; try discriminate; reflexivity.
Qed.

Lemma minus_zero (g : float) : Py.gt g 0 = true -> (g - 0 = g)%float.
Proof.
  unfold Py.gt. rewrite FloatAxioms.ltb_spec. change (Prim2SF 0) with (S754_zero false).
  intros Hg. apply Prim2SF_inj. rewrite sub_spec.
  change (Prim2SF 0) with (S754_zero false).
  destruct (Prim2SF g) as [sg|[]| |[] mg eg]; try discriminate; reflexivity.
Qed.

Lemma positive_signed (g : float) :
  Py.gt g 0 = true -> sf_signed false (Prim2SF g) = true.
Proof.
  unfold Py.gt. rewrite FloatAxioms.ltb_spec. change (Prim2SF 0) with (S754_zero false).
  destruct (Prim2SF g) as [sg|[]| |[] mg eg]; try discriminate; reflexivity.
Qed.

Lemma signed_not_lt_zero (x : float) :
  sf_signed false (Prim2SF x) = true -> (x <? 0)%float = false.
Proof.
  rewrite FloatAxioms.ltb_spec. change (Prim2SF 0) with (S754_zero false).
  destruct (Prim2SF x) as [s|[]| |[] m e]; try discriminate; reflexivity.
Qed.

(** X15. A macro that is missing from the summary counts as nothing eaten:
    with a positive goal its entry has consumed 0, percentage 0, the whole
    (rounded) goal remaining and [is_over] false. *)
Theorem get_progress_missing_macro (user_config : UserConfig.t)
  (daily_summary : gmap string float) (key : string) :
  key ∈ macro_keys ->
  daily_summary !! key = None ->
  let g := Py.dict_get (calculate_daily_goals user_config) key 1%float in
  Py.gt g 0 = true ->
  progress_entry_of user_config daily_summary key =
  Some {| consumed := 0; goal := Py.round1 g; percentage := 0;
          remaining := Py.round1 g; is_over := false |}.
Proof.
  intros Hk Hs g Hg. rewrite (progress_entry_of_eq _ _ _ Hk). f_equal.
  assert (Hc : Py.dict_get daily_summary key 0%float = 0%float)
    by (unfold Py.dict_get; now rewrite Hs).
  unfold entry_for. rewrite Hc. fold g.
  rewrite Hg, (zero_quotient g Hg), (minus_zero g Hg).
  assert (Hmax : Py.max (Py.round1 g) 0 = Py.round1 g).
  { unfold Py.max, Py.gt.
    now rewrite (signed_not_lt_zero _ (round1_signed _ (positive_signed g Hg))). }
  assert (Hover : Py.gt 0 g = false).
  { unfold Py.gt. apply signed_not_lt_zero, positive_signed, Hg. }
  rewrite Hmax, Hover. reflexivity.
Qed.

(** *** The remaining amount *)

(** X16. The remaining amount is never below zero: for every user config and
    daily summary and each macro, [remaining < 0] is false, and when consumed
    and the goal are finite numbers the remaining amount is a number that is
    at least 0. *)
Theorem remaining_never_negative (user_config : UserConfig.t)
  (daily_summary : gmap string float) (key : string) :
  key ∈ macro_keys ->
  let c := Py.dict_get daily_summary key 0%float in
  let g := Py.dict_get (calculate_daily_goals user_config) key 1%float in
  exists entry, progress_entry_of user_config daily_summary key = Some entry /\
    Py.lt (remaining entry) 0 = false /\
    (finite_number c = true -> finite_number g = true ->
     Py.le 0 (remaining entry) = true).
Proof.
  intros Hk c g. eexists. split; [now apply progress_entry_of_eq|].
  unfold entry_for. cbn [remaining]. fold c g.
  unfold Py.max, Py.gt, Py.lt, Py.le.
  destruct (Py.round1 (g - c) <? 0)%float eqn:E.
  - split; [reflexivity|]. intros _ _. reflexivity.
  - split; [exact E|]. intros Hc Hg.
    apply le_zero_of_not_lt; [|exact E].
    now apply round1_not_nan, sub_not_nan.
Qed.

End CalculatorMore.

(** ** Handlers and calculator together *)

Section HandlerComposition.

Variable py_float : string -> option float.
Variable py_int : string -> option Z.
Variable strptime_hm : string -> option time.
Variable today : date.
Variable now_hm : string.

(** X17. A stored record counts at once.  When [add_record] answers with the
    success redirect, the summary of today over the new table is the summary
    over the old one with, under each of the four keys, the new record's
    entry of [calculate_nutrient_amount] added. *)
Theorem add_record_counts (req : http_request) (st : db) :
  let st' := fst (add_record py_float py_int strptime_hm today now_hm req st) in
  snd (add_record py_float py_int strptime_hm today now_hm req st) =
  Redirect "index" [mk_flash "记录添加成功！" None "success"] ->
  exists record total total',
    daily_records st' = daily_records st ++ [record] /\
    get_daily_summary (daily_records st) today None = Ok total /\
    get_daily_summary (daily_records st') today None = Ok total' /\
    forall key, key ∈ total_keys ->
      exists t a, total !! key = Some t /\ nutrient record key = Some a /\
                  total' !! key = Some (t + a)%float.
Proof.
  cbv zeta. intros Hanswer.
  destruct (add_record_shape py_float py_int strptime_hm today now_hm req st)
    as [[_ (flashes & Hf)] | (record & E & _ & Hd)].
  - rewrite Hf in Hanswer. discriminate.
  - rewrite E. cbn [fst daily_records].
    destruct (summary_snoc_same_date (daily_records st) record today None Hd)
      as (total & total' & E1 & E2 & H).
    exists record, total, total'. now repeat split.
Qed.

End HandlerComposition.

(** ** The further properties on sample inputs *)

Section MoreExamples.

Lemma pk_unique_preserved_witness :
  pk_unique (init_database db_one_record) /\
  pk_unique (run float_of_digits int_of_digits time_of_hm new_year "12:00"
               [(RAddTemplate, post_oats); (RAddRecord, post_record_1);
                (RDeleteTemplate 1, get_request)] db_one_record).
Proof.
  apply pk_unique_preserved.
  repeat split; apply NoDup_singleton.
Defined.



Lemma add_then_delete_template_witness :
  delete_template 2 (fst (add_template float_of_digits post_oats db_one_template)) =
  (db_one_template, Redirect "templates" [mk_flash "模板已删除！" None "success"]).
Proof.
  apply (add_then_delete_template float_of_digits post_oats db_one_template
           (FoodTemplate.make 2 "oats" 10 10 10 None)).
  reflexivity.
Defined.

Lemma config_all_or_nothing_witness :
  config float_of_text post_config_bad db_one_record =
  (db_one_record, Render "config.html" [mk_flash "请输入有效的数字！" None "error"]) /\
  config float_of_text post_config_70 db_one_record =
  (mk_db [UserConfig.make 1 70 4 2 1] [rice_template] [rice],
   Redirect "index" [mk_flash "配置已更新！" None "success"]) /\
  config float_of_text post_config_nan db_one_record =
  (db_one_record, Uncaught IntegrityError).
Proof.
  split; [|split].
  - apply (config_all_or_nothing float_of_text post_config_bad db_one_record
             default_config []); try reflexivity.
    + repeat constructor; eexists; reflexivity.
    + apply Exists_cons_tl, Exists_cons_hd. exists "abc". split; reflexivity.
  - assert (Hall : Forall (fun k => is_Some (form post_config_70 !! k))
                     ["weight"; "carb_per_kg"; "protein_per_kg"; "fat_per_kg"])
      by (repeat constructor; eexists; reflexivity).
    apply (proj1 (proj2 (config_all_or_nothing float_of_text post_config_70
                           db_one_record default_config [] eq_refl eq_refl Hall)
                    70%float 4%float 2%float 1%float eq_refl eq_refl eq_refl eq_refl)).
    repeat constructor.
  - assert (Hall : Forall (fun k => is_Some (form post_config_nan !! k))
                     ["weight"; "carb_per_kg"; "protein_per_kg"; "fat_per_kg"])
      by (repeat constructor; eexists; reflexivity).
    apply (proj2 (proj2 (config_all_or_nothing float_of_text post_config_nan
                           db_one_record default_config [] eq_refl eq_refl Hall)
                    nan 4%float 2%float 1%float eq_refl eq_refl eq_refl eq_refl)).
    apply Exists_cons_hd. reflexivity.
Defined.

Lemma delete_record_spec_witness :
  delete_record 7 db_one_record = (db_one_record, Abort 404) /\
  delete_record (2 ^ 63) db_one_record = (db_one_record, Uncaught OverflowError) /\
  delete_record 1 db_one_record =
  (db_one_template, Redirect "index" [mk_flash "记录已删除！" None "success"]).
Proof.
  split; [|split].
  - apply (proj1 (delete_record_spec 7 db_one_record)); reflexivity.
  - apply (proj1 (delete_record_spec (2 ^ 63) db_one_record)); [reflexivity|].
    apply Z.le_refl.
  - destruct (proj2 (delete_record_spec 1 db_one_record)) as (Hanswer & _);
      [eexists; reflexivity|].
    rewrite <- Hanswer. reflexivity.
Defined.

Lemma delete_template_spec_witness :
  delete_template 7 db_one_record = (db_one_record, Abort 404) /\
  delete_template (2 ^ 63) db_one_record = (db_one_record, Uncaught OverflowError) /\
  daily_records (fst (delete_template 1 db_one_record)) = [rice] /\
  food_templates (fst (delete_template 1 db_one_record)) = [].
Proof.
  split; [|split].
  - apply (proj1 (delete_template_spec 7 db_one_record)); reflexivity.
  - apply (proj1 (delete_template_spec (2 ^ 63) db_one_record)); [reflexivity|].
    apply Z.le_refl.
  - destruct (proj2 (delete_template_spec 1 db_one_record)) as (_ & _ & _ & _ & Hr);
      [eexists; reflexivity|].
    split; [exact Hr | reflexivity].
Defined.

Lemma edit_template_frame_witness :
  edit_template float_of_digits 7 post_rice_120 db_one_record =
  (db_one_record, Abort 404) /\
  edit_template float_of_digits (2 ^ 63) post_rice_120 db_one_record =
  (db_one_record, Uncaught OverflowError) /\
  daily_records (fst (edit_template float_of_digits 1 post_rice_120 db_one_record)) =
  [rice].
Proof.
  split; [|split].
  - apply (proj2 (proj2 (proj2 (proj2
             (edit_template_frame float_of_digits 7 post_rice_120 db_one_record)))));
      reflexivity.
  - apply (proj2 (proj2 (proj2 (proj2
             (edit_template_frame float_of_digits (2 ^ 63) post_rice_120
                db_one_record)))));
      [reflexivity|]. apply Z.le_refl.
  - apply (proj1 (proj2
             (edit_template_frame float_of_digits 1 post_rice_120 db_one_record))).
Defined.

Lemma nan_ratio_not_stored_witness :
  add_template float_of_text post_rice_nan db_one_template =
  (db_one_template,
   Render "add_template.html" [mk_flash "添加失败: " (Some IntegrityError) "error"]) /\
  edit_template float_of_text 1 post_rice_nan db_one_template =
  (db_one_template,
   Render "edit_template.html" [mk_flash "更新失败: " (Some IntegrityError) "error"]).
Proof.
  assert (Hcal : calories_field_ok float_of_text (form post_rice_nan))
    by (left; reflexivity).
  assert (Hnan : Exists (fun x => is_nan x = true) [nan; 40%float; 30%float])
    by (apply Exists_cons_hd; reflexivity).
  destruct (nan_ratio_not_stored float_of_text 1 post_rice_nan db_one_template
              rice_template "rice" "nan" "40" "30" nan 40 30
              eq_refl eq_refl eq_refl eq_refl eq_refl eq_refl eq_refl eq_refl
              Hcal Hnan) as (_ & Hadd & Hedit).
  split; [exact Hadd | apply Hedit; reflexivity].
Defined.

Lemma get_requests_read_only_witness :
  fst (handle float_of_digits int_of_digits time_of_hm new_year "12:00"
         (REditTemplate 1) get_request db_one_record) = db_one_record.
Proof.
  apply get_requests_read_only; reflexivity.
Defined.

Lemma nonneg_records_percentage_in_range_witness :
  exists daily_summary entry,
    get_daily_summary [rice] new_year None = Ok daily_summary /\
    progress_entry_of default_config daily_summary "carb" = Some entry /\
    Py.le 0 (Py.dict_get daily_summary "carb" 0%float) = true /\
    Py.le 0 (percentage entry) = true /\ Py.le (percentage entry) 100 = true.
Proof.
  apply nonneg_records_percentage_in_range.
  - repeat constructor.
  - repeat constructor.
  - apply float_neq. reflexivity.
Defined.

Lemma get_progress_missing_macro_witness :
  progress_entry_of default_config carb_60 "fat" =
  Some {| consumed := 0; goal := 48; percentage := 0; remaining := 48;
          is_over := false |}.
Proof.
  apply (get_progress_missing_macro default_config carb_60 "fat");
    [repeat constructor | reflexivity | reflexivity].
Defined.

Lemma remaining_never_negative_witness :
  exists entry, progress_entry_of default_config protein_100 "protein" = Some entry /\
    Py.lt (remaining entry) 0 = false /\ Py.le 0 (remaining entry) = true.
Proof.
  destruct (remaining_never_negative default_config protein_100 "protein")
    as (entry & He & Hlt & Hle); [repeat constructor|].
  exists entry. split; [exact He|]. split; [exact Hlt|]. apply Hle; reflexivity.
Defined.

Lemma add_record_counts_witness :
  exists record total total',
    daily_records
      (fst (add_record float_of_digits int_of_digits time_of_hm new_year "12:00"
              post_record_1 db_one_record)) = [rice] ++ [record] /\
    get_daily_summary [rice] new_year None = Ok total /\
    get_daily_summary
      (daily_records
         (fst (add_record float_of_digits int_of_digits time_of_hm new_year "12:00"
                 post_record_1 db_one_record))) new_year None = Ok total' /\
    forall key, key ∈ total_keys ->
      exists t a, total !! key = Some t /\ nutrient record key = Some a /\
                  total' !! key = Some (t + a)%float.
Proof.
  apply (add_record_counts float_of_digits int_of_digits time_of_hm new_year "12:00"
           post_record_1 db_one_record).
  reflexivity.
Defined.

End MoreExamples.
